(** * LegacyLocalCacheRepository: a shallow embedding and its properties

    Source: [Source/Assemblies/Caching/LegacyLocalCacheRepository.ts].

    The class is a thin layer over a process-wide, name-partitioned key/value
    store ([LocalCacheHelper]) plus one Node.js interval timer per instance.
    Every method is embedded as an action of a small state monad over a
    [World] that holds the shared store partitions, the log of calls made to
    the helper, and the runtime's timer table. The instance's own mutable
    fields live in a record that the only mutating method returns updated. *)

From Stdlib Require Import ZArith.
From stdpp Require Import base option list gmap strings pretty.

Set Default Proof Using "Type".

(** ** The expiration policy *)

(** Modelled from the spec: the enumeration [./Enumeration/CachePolicy] is not
    part of the sources at hand. Its twelve members are the ones named by the
    [case] labels of [CalculateResetMsForStatePolicy] (with the spelling the
    code uses for the thirty-seconds and thirty-minutes members). A TypeScript
    enum is not checked at run time, so a caller can pass any other value;
    [Unrecognized raw] stands for such a value, equal to none of the members. *)
Inductive CachePolicy : Type :=
  | DoNotCache
  | NoReset
  | StaleAfterFiveSeconds
  | StaleAfterTenSeconds
  | SateAfterThirtySeconds
  | StaleAfterOneMinute
  | StaleAfterTwoMinutes
  | StaleAfterFiveMinutes
  | StaleAfterTenMinutes
  | StaleAfterFifteenMinutes
  | StateAfterThirtyMinutes
  | StaleAfterOneHour
  | Unrecognized (raw : Z).

(** [timeOut] is [null] ([None]) or a number. The local starts as [null] and
    the [switch] has no [default], so a value matching no label leaves it
    [null]. *)
Definition CalculateResetMsForStatePolicy (policy : CachePolicy) : option Z :=
  let timeOut : option Z := None in
  match policy with
  | DoNotCache => None
  | NoReset => Some (-1)%Z
  | StaleAfterFiveSeconds => Some 5000%Z
  | StaleAfterTenSeconds => Some 10000%Z
  | SateAfterThirtySeconds => Some 30000%Z
  | StaleAfterOneMinute => Some 60000%Z
  | StaleAfterTwoMinutes => Some 120000%Z
  | StaleAfterFiveMinutes => Some 300000%Z
  | StaleAfterTenMinutes => Some 600000%Z
  | StaleAfterFifteenMinutes => Some 900000%Z
  | StateAfterThirtyMinutes => Some 1800000%Z
  | StaleAfterOneHour => Some 3600000%Z
  | Unrecognized _ => timeOut
  end.

(** The members whose interval is a finite duration. *)
Definition finiteIntervalPolicies : list CachePolicy :=
  [ StaleAfterFiveSeconds; StaleAfterTenSeconds; SateAfterThirtySeconds;
    StaleAfterOneMinute; StaleAfterTwoMinutes; StaleAfterFiveMinutes;
    StaleAfterTenMinutes; StaleAfterFifteenMinutes; StateAfterThirtyMinutes;
    StaleAfterOneHour ].

(** ** The world the repository runs in *)

(** One entry of the helper's call log. *)
Inductive HelperCall : Type :=
  | CallRegister (name : string)
  | CallGetSize (name : string)
  | CallClear (name : string)
  | CallGetAll (name : string)
  | CallGet (name key : string)
  | CallSet (name key value : string)
  | CallDelete (name key : string).

(** The function handed to [setInterval]. The only one the class creates is
    the arrow function of [RegisterResetRoundRobin], closed over the
    instance's store name. *)
Inductive TimerCallback : Type :=
  | ResetTick (name : string).

(** A Node.js [Timeout] object made by [setInterval]: [hasRef] says whether
    the timer keeps the event loop alive, [active] whether it still fires
    (only [clearInterval] ends that). *)
Record Timeout : Type := mkTimeout {
  callback : TimerCallback;
  delay : Z;
  hasRef : bool;
  active : bool
}.

Record World : Type := mkWorld {
  stores : gmap string (gmap string string);
  calls : list HelperCall;
  timers : list Timeout
}.

Definition emptyWorld : World := mkWorld ∅ [] [].

(** ** A state monad over the world *)

Definition M (A : Type) : Type := World → A * World.

Definition ret {A : Type} (a : A) : M A := λ w, (a, w).

Definition bind {A B : Type} (m : M A) (k : A → M B) : M B :=
  λ w, let (a, w') := m w in k a w'.

Notation "'let*' x ':=' m 'in' k" := (bind m (λ x, k))
  (at level 10, x name, m at level 100, k at level 200).

Notation "'let*' ( x , y ) ':=' m 'in' k" := (bind m (λ '(x, y), k))
  (at level 10, x name, y name, m at level 100, k at level 200).

Definition logCall (c : HelperCall) : M unit :=
  λ w, (tt, mkWorld (stores w) (calls w ++ [c]) (timers w)).

Definition getStores : M (gmap string (gmap string string)) :=
  λ w, (stores w, w).

Definition putStores (s : gmap string (gmap string string)) : M unit :=
  λ w, (tt, mkWorld s (calls w) (timers w)).

(** ** The backing store *)

(** Modelled from the spec: [./LocalCache/Helper] is not part of the sources
    at hand. The operations follow the collaborator contract: a registry of
    partitions keyed by store name, each a map from key to raw string.
    Every operation appends itself to the call log, so that a world left
    unchanged means the helper was not reached at all. What the helper does
    for a name that was never registered is not stated; here reads see an
    empty partition and writes leave the registry alone. *)
Module LocalCacheHelper.

Definition partition (name : string) (s : gmap string (gmap string string))
  : gmap string string := default ∅ (s !! name).

Definition RegisterLocalCacheStore (name : string) : M unit :=
  let* _ := logCall (CallRegister name) in
  let* s := getStores in
  match s !! name with
  | Some _ => ret tt
  | None => putStores (<[name := ∅]> s)
  end.

Definition GetLocalCacheSize (name : string) : M Z :=
  let* _ := logCall (CallGetSize name) in
  let* s := getStores in
  ret (Z.of_nat (size (partition name s))).

Definition ClearLocalCacheStore (name : string) : M unit :=
  let* _ := logCall (CallClear name) in
  let* s := getStores in
  putStores (alter (λ _, ∅) name s).

Definition GetAllLocalCacheValues (name : string) : M (gmap string string) :=
  let* _ := logCall (CallGetAll name) in
  let* s := getStores in
  ret (partition name s).

Definition GetLocalCacheValue (name key : string) : M (bool * option string) :=
  let* _ := logCall (CallGet name key) in
  let* s := getStores in
  match partition name s !! key with
  | Some v => ret (true, Some v)
  | None => ret (false, None)
  end.

Definition SetLocalCachedValue (name key value : string) : M (option string) :=
  let* _ := logCall (CallSet name key value) in
  let* s := getStores in
  let* _ := putStores (alter (insert key value) name s) in
  ret (Some value).

Definition DeleteLocalCachedValue (name key : string) : M unit :=
  let* _ := logCall (CallDelete name key) in
  let* s := getStores in
  putStores (alter (delete key) name s).

End LocalCacheHelper.

(** ** The runtime's timers *)

Module Timers.

(** [setInterval(cb, ms)]: a new referenced, active timer; the handle is
    its index in the table. *)
Definition setInterval (cb : TimerCallback) (ms : Z) : M nat :=
  λ w, (length (timers w),
        mkWorld (stores w) (calls w)
                (timers w ++ [mkTimeout cb ms true true])).

(** [timer.unref()]: the timer no longer keeps the process alive. It is
    not cancelled. *)
Definition unref (h : nat) : M unit :=
  λ w, (tt,
        mkWorld (stores w) (calls w)
                (alter (λ t, mkTimeout (callback t) (delay t) false (active t))
                       h (timers w))).

(** [clearInterval(timer)]: the timer stops firing. The class never calls
    it; it is here to say what stopping a timer is. *)
Definition clearInterval (h : nat) : M unit :=
  λ w, (tt,
        mkWorld (stores w) (calls w)
                (alter (λ t, mkTimeout (callback t) (delay t) (hasRef t) false)
                       h (timers w))).

(** The body of the arrow function given to [setInterval]. *)
Definition runCallback (cb : TimerCallback) : M unit :=
  match cb with
  | ResetTick name =>
      let* cacheStoreSize := LocalCacheHelper.GetLocalCacheSize name in
      if (0 <? cacheStoreSize)%Z
      then LocalCacheHelper.ClearLocalCacheStore name
      else ret tt
  end.

(** One elapsed interval of timer [h]: its callback runs if the timer is
    still active. *)
Definition fire (h : nat) : M unit :=
  λ w, match timers w !! h with
       | Some t => if active t then runCallback (callback t) w else (tt, w)
       | None => (tt, w)
       end.

Definition activeCount (w : World) : nat :=
  length (filter (λ t, active t = true) (timers w)).

End Timers.

(** ** The repository *)

(** The object literal behind [_PersistentRoundRobinState]; a class field
    initialiser, so every instance has its own. *)
Record RoundRobinState : Type := mkRoundRobinState {
  WasRegisteredForCacheReset : bool
}.

(** The instance fields. [_CacheRefreshIntervalTimer] is [undefined] ([None])
    until a timer is registered. *)
Record LegacyLocalCacheRepository : Type := mkRepository {
  _Name : string;
  _DoNotCache : bool;
  _CacheRefreshIntervalTimer : option nat;
  _PersistentRoundRobinState : RoundRobinState
}.

(** A value typed [T] by a cast only: [null], a real [T], or the raw cached
    string passed through [<T>(<unknown>cachedValue)]. *)
Inductive Cast (T : Type) : Type :=
  | null
  | typed (t : T)
  | rawString (s : string).
Arguments null {T}.
Arguments typed {T} t.
Arguments rawString {T} s.

Definition RegisterResetRoundRobin
    (this : LegacyLocalCacheRepository) (policy : CachePolicy)
  : M LegacyLocalCacheRepository :=
  if negb (WasRegisteredForCacheReset (_PersistentRoundRobinState this)) then
    let cacheRefreshInterval := CalculateResetMsForStatePolicy policy in
    let this :=
      mkRepository (_Name this)
                   (bool_decide (cacheRefreshInterval = None))
                   (_CacheRefreshIntervalTimer this)
                   (mkRoundRobinState true) in
    match cacheRefreshInterval with
    | Some ms =>
        if bool_decide (ms ≠ (-1)%Z) then
          let* h := Timers.setInterval (ResetTick (_Name this)) ms in
          ret (mkRepository (_Name this) (_DoNotCache this) (Some h)
                            (_PersistentRoundRobinState this))
        else ret this
    | None => ret this
    end
  else ret this.

(** [new LegacyLocalCacheRepository(cacheStoreName, policy)]: the field
    initialisers, then the constructor body. *)
Definition new (cacheStoreName : string) (policy : CachePolicy)
  : M LegacyLocalCacheRepository :=
  let this := mkRepository cacheStoreName false None (mkRoundRobinState false) in
  let* _ := LocalCacheHelper.RegisterLocalCacheStore cacheStoreName in
  RegisterResetRoundRobin this policy.

Definition Name (this : LegacyLocalCacheRepository) : string := _Name this.

Definition IsCacheClear (this : LegacyLocalCacheRepository) : M bool :=
  let* n := LocalCacheHelper.GetLocalCacheSize (_Name this) in
  ret (bool_decide (n = 0%Z)).

Definition KillReset (this : LegacyLocalCacheRepository) : M unit :=
  match _CacheRefreshIntervalTimer this with
  | Some h => Timers.unref h
  | None => ret tt
  end.

Definition Clear (this : LegacyLocalCacheRepository) : M unit :=
  LocalCacheHelper.ClearLocalCacheStore (_Name this).

Definition GetAllCachedValues (this : LegacyLocalCacheRepository)
  : M (gmap string string) :=
  LocalCacheHelper.GetAllLocalCacheValues (_Name this).

Definition GetCachedValue (this : LegacyLocalCacheRepository) (key : string)
  : M (bool * option string) :=
  if _DoNotCache this then ret (false, None)
  else
    let* (hasKey, cachedValue) :=
      LocalCacheHelper.GetLocalCacheValue (_Name this) key in
    if hasKey : bool then ret (true, cachedValue) else ret (false, None).

Definition SetCachedValue (this : LegacyLocalCacheRepository)
    (key value : string) : M (option string) :=
  if _DoNotCache this then ret None
  else LocalCacheHelper.SetLocalCachedValue (_Name this) key value.

Definition GetCachedValueOrCacheNewValue (this : LegacyLocalCacheRepository)
    (key value : string) : M (option string) :=
  let* (presentInCache, cachedValue) := GetCachedValue this key in
  if presentInCache : bool then ret cachedValue
  else SetCachedValue this key value.

Definition RemoveKey (this : LegacyLocalCacheRepository) (key : string)
  : M unit :=
  LocalCacheHelper.DeleteLocalCachedValue (_Name this) key.

(** The typed accessors use three builtins of the language runtime, taken
    here as parameters: [JSON.parse] ([None] when it throws), [JSON.stringify],
    and for numbers [parseFloat], [isNaN] and [Number.prototype.toString]. *)
Section TypedAccessors.

Context {T : Type}.
Variable JSON_parse : string → option T.
Variable JSON_stringify : T → string.

(** [JSON.parse(cachedValue)] inside the [try]. A [null] cached value (which
    the helper never pairs with [hasKey]) reads as the text [null] and
    parses to [null]. *)
Definition GetCachedValueJson (this : LegacyLocalCacheRepository)
    (key : string) (returnTrueValueIfParseFail : bool)
  : M (bool * Cast T) :=
  if _DoNotCache this then ret (false, null)
  else
    let* (hasKey, cachedValue) :=
      LocalCacheHelper.GetLocalCacheValue (_Name this) key in
    if hasKey : bool then
      match cachedValue with
      | Some raw =>
          match JSON_parse raw with
          | Some t => ret (true, typed t)
          | None =>
              if returnTrueValueIfParseFail then ret (true, rawString raw)
              else ret (false, null)
          end
      | None => ret (true, null)
      end
    else ret (false, null).

Definition SetCachedValueJson (this : LegacyLocalCacheRepository)
    (key : string) (value : T) : M (Cast T) :=
  if _DoNotCache this then ret null
  else
    let* _ :=
      LocalCacheHelper.SetLocalCachedValue (_Name this) key
                                           (JSON_stringify value) in
    ret (typed value).

(** The [key] is read with the flag at its default, [false]. *)
Definition GetCachedValueOrCacheNewValueJson
    (this : LegacyLocalCacheRepository) (key : string) (value : T)
  : M (Cast T) :=
  let* (presentInCache, cachedValue) := GetCachedValueJson this key false in
  if presentInCache : bool then ret cachedValue
  else SetCachedValueJson this key value.

End TypedAccessors.

Section NumberAccessors.

Context {Num : Type}.
Variable parseFloat : string → Num.
Variable isNaN : Num → bool.
Variable toString : Num → string.

(** [parseFloat(null)] is not-a-number, so a [null] cached value takes the
    parse-failure branch. *)
Definition GetCachedValueNumber (this : LegacyLocalCacheRepository)
    (key : string) (returnTrueValueIfParseFail : bool)
  : M (bool * Cast Num) :=
  if _DoNotCache this then ret (false, null)
  else
    let* (hasKey, cachedValue) :=
      LocalCacheHelper.GetLocalCacheValue (_Name this) key in
    if hasKey : bool then
      match cachedValue with
      | Some raw =>
          let val := parseFloat raw in
          if isNaN val then
            if returnTrueValueIfParseFail then ret (true, rawString raw)
            else ret (false, null)
          else ret (true, typed val)
      | None =>
          if returnTrueValueIfParseFail then ret (true, null)
          else ret (false, null)
      end
    else ret (false, null).

Definition SetCachedValueNumber (this : LegacyLocalCacheRepository)
    (key : string) (value : Num) : M (Cast Num) :=
  if _DoNotCache this then ret null
  else
    let* _ :=
      LocalCacheHelper.SetLocalCachedValue (_Name this) key (toString value) in
    ret (typed value).

End NumberAccessors.

(** ** Drivers and sample instances used in the statements below *)

(** The reset-registration routine invoked once per policy of [ps], in order,
    on the same instance. *)
Fixpoint registerAll (ps : list CachePolicy) (this : LegacyLocalCacheRepository)
  : M LegacyLocalCacheRepository :=
  match ps with
  | [] => ret this
  | p :: ps' =>
      let* this' := RegisterResetRoundRobin this p in
      registerAll ps' this'
  end.

(** An instance of the JSON parameters at [T := bool]: the decoder accepts
    the texts [true] and [false] and the encoder writes them. It is used to
    run the typed accessors on raw strings that are not JSON at all. *)
Definition decodeBoolean (s : string) : option bool :=
  if String.eqb s "true" then Some true
  else if String.eqb s "false" then Some false
  else None.

Definition encodeBoolean (b : bool) : string :=
  if b then "true" else "false".

(** An instance of the number parameters: numbers are [option N] with [None]
    for not-a-number, and the parse reads the longest prefix of decimal
    digits, the way [parseFloat] reads a prefix and yields not-a-number when
    there is none. *)
Definition digitOf (c : Ascii.ascii) : option N :=
  let n := Ascii.N_of_ascii c in
  if ((48 <=? n) && (n <=? 57))%N then Some (n - 48)%N else None.

Fixpoint leadingDigits (s : string) (acc : option N) : option N :=
  match s with
  | EmptyString => acc
  | String c rest =>
      match digitOf c with
      | Some d => leadingDigits rest (Some (10 * default 0%N acc + d)%N)
      | None => acc
      end
  end.

Definition parseDigits (s : string) : option N := leadingDigits s None.

Definition isNone {A : Type} (o : option A) : bool :=
  match o with Some _ => false | None => true end.

(** A world where the partition [cache] already holds [k -> v], as left by
    any other instance that shares the name. *)
Definition sharedWorld : World :=
  mkWorld {[ "cache" := {[ "k" := "v" ]} ]} [] [].

(** An instance built with a caching policy over an empty world, and the
    world construction leaves. *)
Definition sampleRepository : LegacyLocalCacheRepository :=
  (new "cache" StaleAfterOneMinute emptyWorld).1.

Definition sampleWorld : World :=
  (new "cache" StaleAfterOneMinute emptyWorld).2.

(** The same world after the raw string [{oops], which is neither JSON nor
    the start of a number, was cached under [k]. *)
Definition garbledWorld : World :=
  (SetCachedValue sampleRepository "k" "{oops" sampleWorld).2.

(** An instance built with the five-second policy over an empty world, the
    world construction leaves (its partition is empty), and that world after
    one entry was cached. *)
Definition tickingRepository : LegacyLocalCacheRepository :=
  (new "cache" StaleAfterFiveSeconds emptyWorld).1.

Definition tickingWorld : World :=
  (new "cache" StaleAfterFiveSeconds emptyWorld).2.

Definition filledWorld : World :=
  (SetCachedValue tickingRepository "k" "v" tickingWorld).2.

(** The number instance's [toString]: decimal digits, or the text [NaN]. *)
Definition showNumber (n : option N) : string :=
  match n with
  | Some d => pretty d
  | None => "NaN"
  end.

(** The sample world after the JSON text [true] was cached under [k]. *)
Definition booleanWorld : World :=
  (SetCachedValue sampleRepository "k" "true" sampleWorld).2.

(** An instance built with [NoReset] over an empty world, the world
    construction leaves, and that world after one entry was cached. *)
Definition lastingRepository : LegacyLocalCacheRepository :=
  (new "cache" NoReset emptyWorld).1.

Definition lastingWorld : World :=
  (SetCachedValue lastingRepository "k" "v"
     (new "cache" NoReset emptyWorld).2).2.

(** An instance built with [DoNotCache] over [sharedWorld]. *)
Definition disabledRepository : LegacyLocalCacheRepository :=
  (new "cache" DoNotCache sharedWorld).1.

Definition disabledWorld : World :=
  (new "cache" DoNotCache sharedWorld).2.

(** A second instance, on another store name, built in [sampleWorld]. *)
Definition otherRepository : LegacyLocalCacheRepository :=
  (new "other" StaleAfterTenMinutes sampleWorld).1.

Definition otherWorld : World :=
  (new "other" StaleAfterTenMinutes sampleWorld).2.

(** A second instance on the name of [sampleRepository], built in
    [otherWorld]. *)
Definition twinRepository : LegacyLocalCacheRepository :=
  (new "cache" NoReset otherWorld).1.

Definition twinWorld : World :=
  (new "cache" NoReset otherWorld).2.

(** ** Traces of use *)

(** One thing that can happen to an instance: a call of one of its public
    members, or one elapsed interval of timer [h] of the runtime. *)
Inductive Step (T Num : Type) : Type :=
  | DoIsCacheClear
  | DoKillReset
  | DoClear
  | DoGetAllCachedValues
  | DoGetCachedValue (key : string)
  | DoGetCachedValueJson (key : string) (returnTrueValueIfParseFail : bool)
  | DoGetCachedValueNumber (key : string) (returnTrueValueIfParseFail : bool)
  | DoSetCachedValue (key value : string)
  | DoSetCachedValueJson (key : string) (value : T)
  | DoSetCachedValueNumber (key : string) (value : Num)
  | DoGetCachedValueOrCacheNewValue (key value : string)
  | DoGetCachedValueOrCacheNewValueJson (key : string) (value : T)
  | DoRemoveKey (key : string)
  | Tick (h : nat).
Arguments DoIsCacheClear {T Num}.
Arguments DoKillReset {T Num}.
Arguments DoClear {T Num}.
Arguments DoGetAllCachedValues {T Num}.
Arguments DoGetCachedValue {T Num} key.
Arguments DoGetCachedValueJson {T Num} key returnTrueValueIfParseFail.
Arguments DoGetCachedValueNumber {T Num} key returnTrueValueIfParseFail.
Arguments DoSetCachedValue {T Num} key value.
Arguments DoSetCachedValueJson {T Num} key value.
Arguments DoSetCachedValueNumber {T Num} key value.
Arguments DoGetCachedValueOrCacheNewValue {T Num} key value.
Arguments DoGetCachedValueOrCacheNewValueJson {T Num} key value.
Arguments DoRemoveKey {T Num} key.
Arguments Tick {T Num} h.

(** Run an action for its effect on the world. *)
Definition discard {A : Type} (m : M A) : M unit :=
  let* _ := m in ret tt.

(** The members that only read: the getters, and [KillReset], which touches
    the timer alone. *)
Definition isReadOnly {T Num : Type} (s : Step T Num) : bool :=
  match s with
  | DoIsCacheClear | DoKillReset | DoGetAllCachedValues
  | DoGetCachedValue _ | DoGetCachedValueJson _ _
  | DoGetCachedValueNumber _ _ => true
  | _ => false
  end.

Definition isTick {T Num : Type} (s : Step T Num) : bool :=
  match s with
  | Tick _ => true
  | _ => false
  end.

Section Traces.

Context {T Num : Type}.
Variable JSON_parse : string → option T.
Variable JSON_stringify : T → string.
Variable parseFloat : string → Num.
Variable isNaN : Num → bool.
Variable toString : Num → string.

Definition step (this : LegacyLocalCacheRepository) (s : Step T Num) : M unit :=
  match s with
  | DoIsCacheClear => discard (IsCacheClear this)
  | DoKillReset => KillReset this
  | DoClear => Clear this
  | DoGetAllCachedValues => discard (GetAllCachedValues this)
  | DoGetCachedValue key => discard (GetCachedValue this key)
  | DoGetCachedValueJson key flag =>
      discard (GetCachedValueJson JSON_parse this key flag)
  | DoGetCachedValueNumber key flag =>
      discard (GetCachedValueNumber parseFloat isNaN this key flag)
  | DoSetCachedValue key value => discard (SetCachedValue this key value)
  | DoSetCachedValueJson key value =>
      discard (SetCachedValueJson JSON_stringify this key value)
  | DoSetCachedValueNumber key value =>
      discard (SetCachedValueNumber toString this key value)
  | DoGetCachedValueOrCacheNewValue key value =>
      discard (GetCachedValueOrCacheNewValue this key value)
  | DoGetCachedValueOrCacheNewValueJson key value =>
      discard (GetCachedValueOrCacheNewValueJson JSON_parse JSON_stringify
                 this key value)
  | DoRemoveKey key => RemoveKey this key
  | Tick h => Timers.fire h
  end.

Fixpoint steps (this : LegacyLocalCacheRepository) (l : list (Step T Num))
  : M unit :=
  match l with
  | [] => ret tt
  | s :: l' => let* _ := step this s in steps this l'
  end.

End Traces.

(** What of a timer no member of the class can change: its callback, its
    delay, and whether it still fires. *)
Definition timerShape (t : Timeout) : TimerCallback * Z * bool :=
  (callback t, delay t, active t).

#[global] Instance CachePolicy_eq_dec : EqDecision CachePolicy.
Proof. solve_decision. Defined.

(** Sample traces over the boolean and digit instances: getters only;
    writes and a tick on a disabled instance; writes and removals without
    ticks; ticks mixed with getters. *)
Definition readTrace : list (Step bool (option N)) :=
  [DoGetCachedValue "k"; DoGetCachedValueJson "k" true;
   DoGetCachedValueNumber "k" false; DoGetAllCachedValues;
   DoIsCacheClear; DoKillReset].

Definition disabledTrace : list (Step bool (option N)) :=
  [DoSetCachedValue "fresh" "x"; DoSetCachedValueJson "k" true;
   DoGetCachedValueOrCacheNewValue "other" "y"; Tick 0].

Definition writeTrace : list (Step bool (option N)) :=
  [DoSetCachedValue "k" "v"; DoSetCachedValueNumber "n" (Some 7%N);
   DoRemoveKey "k"; DoClear].

Definition tickTrace : list (Step bool (option N)) :=
  [Tick 0; DoGetCachedValue "k"; Tick 0; DoKillReset; Tick 1].

(** [lastingWorld] after an instance with a five-second reset was built on
    another store name: the runtime has one timer, and it resets [other]. *)
Definition watchedWorld : World :=
  (new "other" StaleAfterFiveSeconds lastingWorld).2.

(** * Properties *)

(** ** Laws of the helper and of construction *)

Ltac unfold_helper :=
  unfold LocalCacheHelper.RegisterLocalCacheStore,
         LocalCacheHelper.GetLocalCacheSize,
         LocalCacheHelper.ClearLocalCacheStore,
         LocalCacheHelper.GetAllLocalCacheValues,
         LocalCacheHelper.GetLocalCacheValue,
         LocalCacheHelper.SetLocalCachedValue,
         LocalCacheHelper.DeleteLocalCachedValue,
         logCall, getStores, putStores, bind, ret in *.

Ltac unfold_repo :=
  unfold GetCachedValueOrCacheNewValue, GetCachedValueOrCacheNewValueJson,
         GetCachedValue, GetCachedValueJson, GetCachedValueNumber,
         SetCachedValue, SetCachedValueJson, SetCachedValueNumber,
         RemoveKey, Clear, GetAllCachedValues, IsCacheClear, KillReset in *.

Lemma partition_alter (f : gmap string string → gmap string string)
    (name : string) (s : gmap string (gmap string string)) :
  is_Some (s !! name) →
  LocalCacheHelper.partition name (alter f name s)
  = f (LocalCacheHelper.partition name s).
Proof.
  intros [m Hm]. unfold LocalCacheHelper.partition.
  by rewrite lookup_alter_eq, Hm.
Qed.

Lemma partition_lookup_registered (name key v : string)
    (s : gmap string (gmap string string)) :
  LocalCacheHelper.partition name s !! key = Some v → is_Some (s !! name).
Proof.
  unfold LocalCacheHelper.partition. destruct (s !! name); [eauto |].
  simpl. by rewrite lookup_empty.
Qed.

(** The instance that [new] returns: the name as given, the disabled flag
    set exactly when the resolver yields [null], the latch closed, and a timer
    handle exactly when the interval is a number other than [-1]. *)
Lemma new_instance (name : string) (policy : CachePolicy) (w0 : World) :
  (new name policy w0).1
  = mkRepository name
      (bool_decide (CalculateResetMsForStatePolicy policy = None))
      (match CalculateResetMsForStatePolicy policy with
       | Some ms =>
           if bool_decide (ms ≠ (-1)%Z) then Some (length (timers w0)) else None
       | None => None
       end)
      (mkRoundRobinState true).
Proof.
  unfold new, RegisterResetRoundRobin. unfold_helper. simpl.
  destruct (stores w0 !! name); simpl;
    destruct (CalculateResetMsForStatePolicy policy) as [ms|]; simpl;
    try destruct (bool_decide (ms ≠ (-1)%Z)); reflexivity.
Qed.

(** Construction leaves the partition registered. *)
Lemma new_registered (name : string) (policy : CachePolicy) (w0 : World) :
  is_Some (stores (new name policy w0).2 !! name).
Proof.
  unfold new, RegisterResetRoundRobin. unfold_helper. simpl.
  destruct (stores w0 !! name) eqn:E; simpl;
    destruct (CalculateResetMsForStatePolicy policy) as [ms|]; simpl;
    try destruct (bool_decide (ms ≠ (-1)%Z)); simpl;
    rewrite ?E, ?lookup_insert_eq; eauto.
Qed.

(** Registration is stable: no helper operation and no timer tick removes a
    partition, so the registration made by the constructor holds for the
    lifetime of the instance. *)
Lemma helper_keeps_registered (name other key value : string) (w : World) :
  is_Some (stores w !! name) →
  is_Some (stores (LocalCacheHelper.RegisterLocalCacheStore other w).2 !! name)
  ∧ is_Some (stores (LocalCacheHelper.SetLocalCachedValue other key value w).2
             !! name)
  ∧ is_Some (stores (LocalCacheHelper.DeleteLocalCachedValue other key w).2
             !! name)
  ∧ is_Some (stores (LocalCacheHelper.ClearLocalCacheStore other w).2 !! name)
  ∧ is_Some (stores (Timers.runCallback (ResetTick other) w).2 !! name).
Proof.
  intros Hreg. unfold Timers.runCallback. unfold_helper. simpl.
  repeat split; rewrite ?lookup_alter_is_Some; try done.
  - destruct (stores w !! other) eqn:E; simpl; [done |].
    destruct (decide (other = name)) as [-> | Hne].
    + by rewrite lookup_insert_eq.
    + by rewrite lookup_insert_ne.
  - destruct (0 <? _)%Z; simpl; by rewrite ?lookup_alter_is_Some.
Qed.

(** Once the latch is closed the registration routine changes nothing. *)
Lemma RegisterResetRoundRobin_latched (this : LegacyLocalCacheRepository)
    (policy : CachePolicy) (w : World) :
  WasRegisteredForCacheReset (_PersistentRoundRobinState this) = true →
  RegisterResetRoundRobin this policy w = (this, w).
Proof. intros H. unfold RegisterResetRoundRobin. by rewrite H. Qed.

(** ** The policy resolver *)

(** C1: every member of the expiration-policy enumeration resolves to the
    interval of the table: [DoNotCache] to the disabled sentinel ([null]),
    [NoReset] to the never-refresh sentinel ([-1]), and the ten stale-after
    members to 5000, 10000, 30000, 60000, 120000, 300000, 600000, 900000,
    1800000 and 3600000 milliseconds. *)
Theorem CalculateResetMsForStatePolicy_table :
  CalculateResetMsForStatePolicy DoNotCache = None
  ∧ CalculateResetMsForStatePolicy NoReset = Some (-1)%Z
  ∧ CalculateResetMsForStatePolicy StaleAfterFiveSeconds = Some 5000%Z
  ∧ CalculateResetMsForStatePolicy StaleAfterTenSeconds = Some 10000%Z
  ∧ CalculateResetMsForStatePolicy SateAfterThirtySeconds = Some 30000%Z
  ∧ CalculateResetMsForStatePolicy StaleAfterOneMinute = Some 60000%Z
  ∧ CalculateResetMsForStatePolicy StaleAfterTwoMinutes = Some 120000%Z
  ∧ CalculateResetMsForStatePolicy StaleAfterFiveMinutes = Some 300000%Z
  ∧ CalculateResetMsForStatePolicy StaleAfterTenMinutes = Some 600000%Z
  ∧ CalculateResetMsForStatePolicy StaleAfterFifteenMinutes = Some 900000%Z
  ∧ CalculateResetMsForStatePolicy StateAfterThirtyMinutes = Some 1800000%Z
  ∧ CalculateResetMsForStatePolicy StaleAfterOneHour = Some 3600000%Z.
Proof. repeat split. Qed.

(** C2, as stated, fails: built with a policy value outside the enumeration,
    the instance has caching disabled, and a write does not reach the
    backing store (the helper's call log is left as it was). *)
Lemma unrecognized_policy_write_not_stored :
  ¬ (let (this, w) := new "cache" (Unrecognized 99) emptyWorld in
     _DoNotCache this = false
     ∧ calls (SetCachedValue this "k" "v" w).2 ≠ calls w).
Proof. vm_compute. intros [H _]. discriminate H. Qed.

(** C2, amended: a policy value outside the enumeration resolves to [null],
    the value [DoNotCache] resolves to. Construction then gives exactly the
    instance and world that [DoNotCache] gives: no timer is started, caching
    is disabled, and raw reads and writes return the miss and no-op results
    without reaching the backing store. *)
Theorem unrecognized_policy_disables_caching
    (raw : Z) (name : string) (w0 : World) :
  CalculateResetMsForStatePolicy (Unrecognized raw) = None
  ∧ new name (Unrecognized raw) w0 = new name DoNotCache w0
  ∧ let (this, w) := new name (Unrecognized raw) w0 in
    _DoNotCache this = true
    ∧ _CacheRefreshIntervalTimer this = None
    ∧ timers w = timers w0
    ∧ ∀ (w' : World) (key value : string),
        GetCachedValue this key w' = ((false, None), w')
        ∧ SetCachedValue this key value w' = (None, w').
Proof.
  split; [reflexivity |]. split; [reflexivity |].
  unfold new, RegisterResetRoundRobin. unfold_helper. simpl.
  destruct (stores w0 !! name); simpl; repeat split.
Qed.

(** ** The disabled repository *)

(** C3, as stated, fails: on an instance built with [DoNotCache], over a
    partition that holds [k], [RemoveKey] calls the helper and the entry is
    deleted: the backing store was both reached and changed. *)
Lemma DoNotCache_RemoveKey_mutates_store :
  let (this, w) := new "cache" DoNotCache sharedWorld in
  ¬ (calls (RemoveKey this "k" w).2 = calls w
     ∨ stores (RemoveKey this "k" w).2 = stores w).
Proof. vm_compute. intros [H | H]; discriminate H. Qed.

(** C3, amended: on an instance built with [DoNotCache], every [Get*] and
    [Set*] call, get-or-populate included, returns the miss or no-op result
    whatever the backing store holds, and leaves the world, call log
    included, untouched: none of them queries or mutates the backing store.
    [RemoveKey], [Clear], [GetAllCachedValues] and [IsCacheClear] have no such
    guard: each makes its call to the helper. *)
Theorem DoNotCache_accessors_bypass_store {T Num : Type}
    (JSON_parse : string → option T) (JSON_stringify : T → string)
    (parseFloat : string → Num) (isNaN : Num → bool) (toString : Num → string)
    (name : string) (w0 : World) :
  let (this, _) := new name DoNotCache w0 in
  ∀ (w : World) (key value : string) (flag : bool) (t : T) (n : Num),
    GetCachedValue this key w = ((false, None), w)
    ∧ GetCachedValueJson JSON_parse this key flag w = ((false, null), w)
    ∧ GetCachedValueNumber parseFloat isNaN this key flag w = ((false, null), w)
    ∧ SetCachedValue this key value w = (None, w)
    ∧ SetCachedValueJson JSON_stringify this key t w = (null, w)
    ∧ SetCachedValueNumber toString this key n w = (null, w)
    ∧ GetCachedValueOrCacheNewValue this key value w = (None, w)
    ∧ GetCachedValueOrCacheNewValueJson JSON_parse JSON_stringify this key t w
      = (null, w)
    ∧ calls (RemoveKey this key w).2 = calls w ++ [CallDelete name key]
    ∧ calls (Clear this w).2 = calls w ++ [CallClear name]
    ∧ calls (GetAllCachedValues this w).2 = calls w ++ [CallGetAll name]
    ∧ calls (IsCacheClear this w).2 = calls w ++ [CallGetSize name].
Proof.
  pose proof (new_instance name DoNotCache w0) as Hthis.
  destruct (new name DoNotCache w0) as [this w1]. simpl in Hthis. subst this.
  intros w key value flag t n. repeat split.
Qed.

(** ** Raw reads and writes *)

(** C4: on an instance that is not disabled, [SetCachedValue k v] echoes [v]
    and a [GetCachedValue k] right after it returns [(true, v)]. *)
Theorem SetCachedValue_GetCachedValue_round_trip
    (this : LegacyLocalCacheRepository) (k v : string) (w : World) :
  _DoNotCache this = false →
  is_Some (stores w !! _Name this) →
  let (r, w1) := SetCachedValue this k v w in
  r = Some v ∧ (GetCachedValue this k w1).1 = (true, Some v).
Proof.
  intros Hon Hreg. unfold_repo. rewrite Hon. unfold_helper. simpl.
  split; [reflexivity |].
  by rewrite partition_alter, lookup_insert_eq.
Qed.

Lemma SetCachedValue_GetCachedValue_round_trip_witness :
  _DoNotCache sampleRepository = false
  ∧ is_Some (stores sampleWorld !! _Name sampleRepository)
  ∧ let (r, w1) := SetCachedValue sampleRepository "k" "v" sampleWorld in
    r = Some "v" ∧ (GetCachedValue sampleRepository "k" w1).1 = (true, Some "v").
Proof.
  assert (Hon : _DoNotCache sampleRepository = false) by reflexivity.
  assert (Hreg : is_Some (stores sampleWorld !! _Name sampleRepository))
    by (vm_compute; eexists; reflexivity).
  split; [exact Hon |]. split; [exact Hreg |].
  exact (SetCachedValue_GetCachedValue_round_trip
           sampleRepository "k" "v" sampleWorld Hon Hreg).
Defined.

(** ** Typed reads *)

(** C5: on an instance that is not disabled, when the raw string cached under
    [k] makes [JSON.parse] throw, [GetCachedValueJson k true] returns
    [(true, raw)], the raw string passed off as a [T], and
    [GetCachedValueJson k false] returns [(false, null)] as for a missing
    key; when [parseFloat] of the raw string is not-a-number,
    [GetCachedValueNumber] does the same under its flag. Each read makes one
    lookup call and changes nothing else. *)
Theorem parse_failure_fallback {T Num : Type}
    (JSON_parse : string → option T)
    (parseFloat : string → Num) (isNaN : Num → bool)
    (this : LegacyLocalCacheRepository) (k raw : string) (w : World) :
  _DoNotCache this = false →
  LocalCacheHelper.partition (_Name this) (stores w) !! k = Some raw →
  (JSON_parse raw = None →
     GetCachedValueJson JSON_parse this k true w
     = ((true, rawString raw), (logCall (CallGet (_Name this) k) w).2)
     ∧ GetCachedValueJson JSON_parse this k false w
       = ((false, null), (logCall (CallGet (_Name this) k) w).2))
  ∧ (isNaN (parseFloat raw) = true →
     GetCachedValueNumber parseFloat isNaN this k true w
     = ((true, rawString raw), (logCall (CallGet (_Name this) k) w).2)
     ∧ GetCachedValueNumber parseFloat isNaN this k false w
       = ((false, null), (logCall (CallGet (_Name this) k) w).2)).
Proof.
  intros Hon Hraw. unfold_repo. rewrite Hon. unfold_helper. simpl.
  rewrite Hraw. simpl.
  split; intros Hfail; rewrite Hfail; split; reflexivity.
Qed.

Lemma parse_failure_fallback_witness :
  _DoNotCache sampleRepository = false
  ∧ LocalCacheHelper.partition (_Name sampleRepository) (stores garbledWorld)
      !! "k" = Some "{oops"
  ∧ decodeBoolean "{oops" = None
  ∧ isNone (parseDigits "{oops") = true
  ∧ (GetCachedValueJson decodeBoolean sampleRepository "k" true garbledWorld).1
    = (true, rawString "{oops")
  ∧ (GetCachedValueJson decodeBoolean sampleRepository "k" false garbledWorld).1
    = (false, null)
  ∧ (GetCachedValueNumber parseDigits isNone sampleRepository "k" true
       garbledWorld).1
    = (true, rawString "{oops")
  ∧ (GetCachedValueNumber parseDigits isNone sampleRepository "k" false
       garbledWorld).1
    = (false, null).
Proof.
  assert (Hon : _DoNotCache sampleRepository = false) by reflexivity.
  assert (Hraw : LocalCacheHelper.partition (_Name sampleRepository)
                   (stores garbledWorld) !! "k" = Some "{oops")
    by (vm_compute; reflexivity).
  assert (Hjson : decodeBoolean "{oops" = None) by reflexivity.
  assert (Hnan : isNone (parseDigits "{oops") = true) by reflexivity.
  destruct (parse_failure_fallback decodeBoolean parseDigits isNone
              sampleRepository "k" "{oops" garbledWorld Hon Hraw)
    as [HJ HN].
  destruct (HJ Hjson) as [HJt HJf]. destruct (HN Hnan) as [HNt HNf].
  rewrite HJt, HJf, HNt, HNf. repeat split; assumption.
Defined.

(** ** Get-or-populate *)

(** C6: [GetCachedValueOrCacheNewValue k v] reads first. When the read hits,
    it returns the cached value, [v] is dropped and nothing is written: the
    store is as before and the only helper call is the lookup. When the read
    misses, the outcome is that of [SetCachedValue k v] run after the read.
    A second call on the same key with another value returns what the first
    call returned and leaves the store as the first call left it; on a fresh
    key of an instance that is not disabled that is the value first
    supplied. *)
Theorem GetCachedValueOrCacheNewValue_reads_then_populates
    (this : LegacyLocalCacheRepository) (k v : string) (w : World) :
  is_Some (stores w !! _Name this) →
  (∀ c w1, GetCachedValue this k w = ((true, c), w1) →
     GetCachedValueOrCacheNewValue this k v w = (c, w1)
     ∧ stores w1 = stores w
     ∧ calls w1 = calls w ++ [CallGet (_Name this) k])
  ∧ (∀ c w1, GetCachedValue this k w = ((false, c), w1) →
     GetCachedValueOrCacheNewValue this k v w = SetCachedValue this k v w1)
  ∧ (∀ v' : string,
       let (r1, w1) := GetCachedValueOrCacheNewValue this k v w in
       let (r2, w2) := GetCachedValueOrCacheNewValue this k v' w1 in
       r2 = r1 ∧ stores w2 = stores w1)
  ∧ (_DoNotCache this = false →
     LocalCacheHelper.partition (_Name this) (stores w) !! k = None →
     let (r1, w1) := GetCachedValueOrCacheNewValue this k v w in
     r1 = Some v
     ∧ LocalCacheHelper.partition (_Name this) (stores w1) !! k = Some v).
Proof.
  intros Hreg. unfold_repo. unfold_helper.
  destruct (_DoNotCache this) eqn:Hdis; simpl.
  - split; [intros c w1; discriminate |].
    split; [by intros c w1 [= <- <-] |].
    split; [done | discriminate].
  - destruct (LocalCacheHelper.partition (_Name this) (stores w) !! k)
      as [c0|] eqn:Hk; simpl.
    + split; [by intros c w1 [= <- <-] |].
      split; [intros c w1; discriminate |].
      split; [| discriminate].
      intros v'. simpl. by rewrite Hk.
    + split; [intros c w1; discriminate |].
      split; [by intros c w1 [= <- <-] |].
      split.
      * intros v'. simpl. by rewrite partition_alter, lookup_insert_eq.
      * intros _ _. by rewrite partition_alter, lookup_insert_eq.
Qed.

Lemma GetCachedValueOrCacheNewValue_reads_then_populates_witness :
  is_Some (stores sampleWorld !! _Name sampleRepository)
  ∧ _DoNotCache sampleRepository = false
  ∧ LocalCacheHelper.partition (_Name sampleRepository) (stores sampleWorld)
      !! "k" = None
  ∧ (let (r1, w1) :=
       GetCachedValueOrCacheNewValue sampleRepository "k" "first" sampleWorld in
     r1 = Some "first"
     ∧ LocalCacheHelper.partition (_Name sampleRepository) (stores w1) !! "k"
       = Some "first")
  ∧ (let (r1, w1) :=
       GetCachedValueOrCacheNewValue sampleRepository "k" "first" sampleWorld in
     let (r2, w2) :=
       GetCachedValueOrCacheNewValue sampleRepository "k" "second" w1 in
     r2 = r1 ∧ stores w2 = stores w1).
Proof.
  assert (Hreg : is_Some (stores sampleWorld !! _Name sampleRepository))
    by (vm_compute; eexists; reflexivity).
  assert (Hon : _DoNotCache sampleRepository = false) by reflexivity.
  assert (Hfresh : LocalCacheHelper.partition (_Name sampleRepository)
                     (stores sampleWorld) !! "k" = None)
    by (vm_compute; reflexivity).
  destruct (GetCachedValueOrCacheNewValue_reads_then_populates
              sampleRepository "k" "first" sampleWorld Hreg)
    as (_ & _ & Hagain & Hfirst).
  split; [exact Hreg |]. split; [exact Hon |]. split; [exact Hfresh |].
  split; [exact (Hfirst Hon Hfresh) | exact (Hagain "second")].
Defined.

(** C10: on an instance that is not disabled, when the raw string cached
    under [k] makes [JSON.parse] throw, [GetCachedValueOrCacheNewValueJson k v]
    reads with the flag at [false], so the read reports a miss; it then
    writes the JSON text of [v] over the entry and returns [v]. The raw
    string that was there is gone. *)
Theorem GetCachedValueOrCacheNewValueJson_overwrites_unparseable {T : Type}
    (JSON_parse : string → option T) (JSON_stringify : T → string)
    (this : LegacyLocalCacheRepository) (k raw : string) (v : T) (w : World) :
  _DoNotCache this = false →
  LocalCacheHelper.partition (_Name this) (stores w) !! k = Some raw →
  JSON_parse raw = None →
  (GetCachedValueJson JSON_parse this k false w).1 = (false, null)
  ∧ let (r, w') :=
      GetCachedValueOrCacheNewValueJson JSON_parse JSON_stringify this k v w in
    r = typed v
    ∧ LocalCacheHelper.partition (_Name this) (stores w') !! k
      = Some (JSON_stringify v)
    ∧ calls w'
      = calls w ++ [CallGet (_Name this) k;
                    CallSet (_Name this) k (JSON_stringify v)].
Proof.
  intros Hon Hraw Hfail.
  pose proof (partition_lookup_registered _ _ _ _ Hraw) as Hreg.
  unfold_repo. rewrite Hon. unfold_helper. simpl.
  rewrite Hraw. simpl. rewrite Hfail. simpl.
  repeat split.
  - by rewrite partition_alter, lookup_insert_eq.
  - by rewrite <- app_assoc.
Qed.

Lemma GetCachedValueOrCacheNewValueJson_overwrites_unparseable_witness :
  _DoNotCache sampleRepository = false
  ∧ LocalCacheHelper.partition (_Name sampleRepository) (stores garbledWorld)
      !! "k" = Some "{oops"
  ∧ decodeBoolean "{oops" = None
  ∧ let (r, w') :=
      GetCachedValueOrCacheNewValueJson decodeBoolean encodeBoolean
        sampleRepository "k" true garbledWorld in
    r = typed true
    ∧ LocalCacheHelper.partition (_Name sampleRepository) (stores w') !! "k"
      = Some "true".
Proof.
  assert (Hon : _DoNotCache sampleRepository = false) by reflexivity.
  assert (Hraw : LocalCacheHelper.partition (_Name sampleRepository)
                   (stores garbledWorld) !! "k" = Some "{oops")
    by (vm_compute; reflexivity).
  assert (Hjson : decodeBoolean "{oops" = None) by reflexivity.
  pose proof (GetCachedValueOrCacheNewValueJson_overwrites_unparseable
                decodeBoolean encodeBoolean sampleRepository "k" "{oops" true
                garbledWorld Hon Hraw Hjson) as [_ H].
  split; [exact Hon |]. split; [exact Hraw |]. split; [exact Hjson |].
  destruct (GetCachedValueOrCacheNewValueJson decodeBoolean encodeBoolean
              sampleRepository "k" true garbledWorld) as [r w'].
  destruct H as (Hr & Hk & _). split; assumption.
Defined.

(** ** The reset scheduler *)

(** What the reset callback does to a world, by the size of the partition. *)
Lemma runCallback_nonempty (name : string) (w : World) :
  0 < size (LocalCacheHelper.partition name (stores w)) →
  Timers.runCallback (ResetTick name) w
  = (tt, mkWorld (alter (λ _, ∅) name (stores w))
                 (calls w ++ [CallGetSize name; CallClear name])
                 (timers w)).
Proof.
  intros Hsize. unfold Timers.runCallback. unfold_helper. simpl.
  destruct (0 <? Z.of_nat (size (LocalCacheHelper.partition name (stores w))))%Z
    eqn:E; [| apply Z.ltb_ge in E; lia].
  simpl. by rewrite <- app_assoc.
Qed.

Lemma runCallback_empty (name : string) (w : World) :
  size (LocalCacheHelper.partition name (stores w)) = 0 →
  Timers.runCallback (ResetTick name) w
  = (tt, mkWorld (stores w) (calls w ++ [CallGetSize name]) (timers w)).
Proof.
  intros Hsize. unfold Timers.runCallback. unfold_helper. simpl.
  by rewrite Hsize.
Qed.

Lemma partition_cleared (name : string) (s : gmap string (gmap string string)) :
  LocalCacheHelper.partition name (alter (λ _, ∅) name s) = ∅.
Proof.
  unfold LocalCacheHelper.partition. rewrite lookup_alter_eq.
  by destruct (s !! name).
Qed.

(** C8: one tick of an active reset timer asks the helper for the size of the
    named partition. When the size is above zero the whole partition is
    cleared (every other partition is left alone); when it is zero the store
    is unchanged and the size query is the only helper call: the clear
    operation is not invoked. *)
Theorem reset_tick_clears_only_nonempty
    (h : nat) (name : string) (ms : Z) (r : bool) (w : World) :
  timers w !! h = Some (mkTimeout (ResetTick name) ms r true) →
  let w' := (Timers.fire h w).2 in
  (0 < size (LocalCacheHelper.partition name (stores w)) →
     LocalCacheHelper.partition name (stores w') = ∅
     ∧ (∀ other, other ≠ name → stores w' !! other = stores w !! other)
     ∧ calls w' = calls w ++ [CallGetSize name; CallClear name])
  ∧ (size (LocalCacheHelper.partition name (stores w)) = 0 →
     stores w' = stores w
     ∧ calls w' = calls w ++ [CallGetSize name]).
Proof.
  intros Ht. unfold Timers.fire. rewrite Ht. cbn [active callback].
  split; intros Hsize.
  - rewrite (runCallback_nonempty name w Hsize). simpl.
    split; [apply partition_cleared |]. split; [| reflexivity].
    intros other Hne. by rewrite lookup_alter_ne.
  - by rewrite (runCallback_empty name w Hsize).
Qed.

Lemma reset_tick_clears_only_nonempty_witness :
  timers filledWorld !! 0 = Some (mkTimeout (ResetTick "cache") 5000 true true)
  ∧ 0 < size (LocalCacheHelper.partition "cache" (stores filledWorld))
  ∧ LocalCacheHelper.partition "cache" (stores (Timers.fire 0 filledWorld).2) = ∅
  ∧ timers tickingWorld !! 0
    = Some (mkTimeout (ResetTick "cache") 5000 true true)
  ∧ size (LocalCacheHelper.partition "cache" (stores tickingWorld)) = 0
  ∧ calls (Timers.fire 0 tickingWorld).2
    = calls tickingWorld ++ [CallGetSize "cache"].
Proof.
  assert (Ht : timers filledWorld !! 0
               = Some (mkTimeout (ResetTick "cache") 5000 true true))
    by reflexivity.
  assert (Hfull : 0 < size (LocalCacheHelper.partition "cache"
                              (stores filledWorld)))
    by (vm_compute; lia).
  assert (Ht' : timers tickingWorld !! 0
                = Some (mkTimeout (ResetTick "cache") 5000 true true))
    by reflexivity.
  assert (Hnone : size (LocalCacheHelper.partition "cache"
                          (stores tickingWorld)) = 0)
    by (vm_compute; reflexivity).
  destruct (reset_tick_clears_only_nonempty 0 "cache" 5000 true filledWorld Ht)
    as [Hclear _].
  destruct (reset_tick_clears_only_nonempty 0 "cache" 5000 true tickingWorld Ht')
    as [_ Hskip].
  split; [exact Ht |]. split; [exact Hfull |].
  split; [exact (proj1 (Hclear Hfull)) |].
  split; [exact Ht' |]. split; [exact Hnone |].
  exact (proj2 (Hskip Hnone)).
Defined.

(** Altering the last cell of a list. *)
Lemma alter_last {A : Type} (f : A → A) (l : list A) (x : A) :
  alter f (length l) (l ++ [x]) = l ++ [f x].
Proof.
  replace (length l) with (length l + 0) by lia.
  by rewrite alter_app_r.
Qed.

(** [clearInterval] is what ends the ticks: after it, an elapsed interval
    runs nothing. *)
Lemma clearInterval_stops_ticks (l : list Timeout) (t : Timeout)
    (s : gmap string (gmap string string)) (c : list HelperCall) :
  let w := (Timers.clearInterval (length l) (mkWorld s c (l ++ [t]))).2 in
  Timers.fire (length l) w = (tt, w).
Proof.
  unfold Timers.clearInterval, Timers.fire. simpl.
  rewrite alter_last. by rewrite list_lookup_middle.
Qed.

(** Construction under a policy whose interval is a duration: one timer is
    appended to the runtime's table and the instance keeps its handle. *)
Lemma new_finite (name : string) (policy : CachePolicy) (ms : Z) (w0 : World) :
  CalculateResetMsForStatePolicy policy = Some ms →
  ms ≠ (-1)%Z →
  new name policy w0
  = (mkRepository name false (Some (length (timers w0)))
                  (mkRoundRobinState true),
     mkWorld (match stores w0 !! name with
              | Some _ => stores w0
              | None => <[name := ∅]> (stores w0)
              end)
             (calls w0 ++ [CallRegister name])
             (timers w0 ++ [mkTimeout (ResetTick name) ms true true])).
Proof.
  intros Hms Hne. unfold new, RegisterResetRoundRobin. unfold_helper. simpl.
  rewrite Hms. rewrite (bool_decide_eq_true_2 _ Hne).
  unfold Timers.setInterval.
  destruct (stores w0 !! name); reflexivity.
Qed.

Lemma finiteIntervalPolicies_resolve (policy : CachePolicy) :
  policy ∈ finiteIntervalPolicies →
  ∃ ms, CalculateResetMsForStatePolicy policy = Some ms ∧ (0 < ms)%Z.
Proof.
  unfold finiteIntervalPolicies. intros Hin.
  repeat (apply elem_of_cons in Hin as [-> | Hin];
          [eexists; split; [reflexivity | lia] |]).
  by apply elem_of_nil in Hin.
Qed.

(** C7, evaluated on the code: for every policy of the finite-interval set,
    construction starts exactly one active repeating timer, and [KillReset]
    leaves the cached data alone and is idempotent, and does nothing when no
    timer was started. But [KillReset] calls [unref] only: the timer is still
    active afterwards, and its next tick fires and clears the partition. *)
Theorem KillReset_leaves_timer_firing (name k v : string) (w0 : World) :
  Forall (λ policy,
    let (this, w1) := new name policy w0 in
    let h := length (timers w0) in
    let w2 := (SetCachedValue this k v w1).2 in
    let w3 := (KillReset this w2).2 in
    (∃ ms, CalculateResetMsForStatePolicy policy = Some ms
           ∧ timers w1 = timers w0 ++ [mkTimeout (ResetTick name) ms true true]
           ∧ timers w3 = timers w0 ++ [mkTimeout (ResetTick name) ms false true])
    ∧ _CacheRefreshIntervalTimer this = Some h
    ∧ Timers.activeCount w1 = S (Timers.activeCount w0)
    ∧ Timers.activeCount w3 = Timers.activeCount w1
    ∧ stores w3 = stores w2
    ∧ KillReset this w3 = (tt, w3)
    ∧ LocalCacheHelper.partition name (stores w3) !! k = Some v
    ∧ LocalCacheHelper.partition name (stores (Timers.fire h w3).2) = ∅)
    finiteIntervalPolicies
  ∧ let (this, w) := new name NoReset w0 in KillReset this w = (tt, w).
Proof.
  split.
  - apply Forall_forall. intros policy Hin.
    destruct (finiteIntervalPolicies_resolve policy Hin) as (ms & Hms & Hpos).
    rewrite (new_finite name policy ms w0 Hms) by lia.
    unfold KillReset, SetCachedValue, Timers.unref. unfold_helper. simpl.
    rewrite !alter_last. simpl.
    assert (Hreg : is_Some (match stores w0 !! name with
                            | Some _ => stores w0
                            | None => <[name := ∅]> (stores w0)
                            end !! name)).
    { destruct (stores w0 !! name) eqn:E; rewrite ?E, ?lookup_insert_eq; eauto. }
    split; [exists ms; done |]. split; [done |].
    unfold Timers.activeCount. simpl. rewrite !filter_app, !length_app.
    split; [simpl; lia |]. split; [done |]. split; [done |].
    split; [done |].
    split; [by rewrite partition_alter, lookup_insert_eq |].
    unfold Timers.fire. simpl. rewrite list_lookup_middle by done.
    cbn [active callback].
    rewrite runCallback_nonempty; [apply partition_cleared |].
    simpl. rewrite partition_alter by done.
    apply Nat.neq_0_lt_0. apply (map_size_ne_0_lookup_2 _ k).
    rewrite lookup_insert_eq. eauto.
  - unfold new, RegisterResetRoundRobin. unfold_helper. simpl.
    by destruct (stores w0 !! name).
Qed.

(** One run of the registration routine closes the latch and appends at most
    one timer to the runtime's table. *)
Lemma RegisterResetRoundRobin_once (this : LegacyLocalCacheRepository)
    (policy : CachePolicy) (w : World) :
  let (this', w') := RegisterResetRoundRobin this policy w in
  WasRegisteredForCacheReset (_PersistentRoundRobinState this') = true
  ∧ ∃ created, timers w' = timers w ++ created ∧ length created ≤ 1.
Proof.
  unfold RegisterResetRoundRobin.
  destruct (WasRegisteredForCacheReset (_PersistentRoundRobinState this))
    eqn:Hlatch; simpl.
  - split; [done |]. exists []. split; [by rewrite app_nil_r | simpl; lia].
  - destruct (CalculateResetMsForStatePolicy policy) as [ms|]; simpl.
    + destruct (bool_decide (ms ≠ (-1)%Z)); simpl.
      * split; [done |]. eexists [_]. split; [reflexivity | simpl; lia].
      * split; [done |]. exists []. split; [by rewrite app_nil_r | simpl; lia].
    + split; [done |]. exists []. split; [by rewrite app_nil_r | simpl; lia].
Qed.

Lemma registerAll_latched (ps : list CachePolicy)
    (this : LegacyLocalCacheRepository) (w : World) :
  WasRegisteredForCacheReset (_PersistentRoundRobinState this) = true →
  registerAll ps this w = (this, w).
Proof.
  intros Hlatch. induction ps as [| p ps IH]; [reflexivity |].
  simpl. unfold bind. by rewrite RegisterResetRoundRobin_latched.
Qed.

(** C9: over the lifetime of an instance the reset timer is registered at
    most once. However many times the registration routine is run on an
    instance, and with whatever policies, at most one timer is added to the
    runtime's table; and on an instance that came out of the constructor,
    whose latch is closed, further runs change neither the instance nor the
    world. *)
Theorem reset_timer_registered_at_most_once
    (this0 : LegacyLocalCacheRepository) (name : string) (policy : CachePolicy)
    (ps : list CachePolicy) (w0 : World) :
  (let (this', w') := registerAll ps this0 w0 in
   ∃ created, timers w' = timers w0 ++ created ∧ length created ≤ 1)
  ∧ (let (this, w) := new name policy w0 in
     registerAll ps this w = (this, w)
     ∧ ∃ created, timers w = timers w0 ++ created ∧ length created ≤ 1).
Proof.
  split.
  - destruct ps as [| p ps]; simpl.
    + exists []. split; [by rewrite app_nil_r | simpl; lia].
    + unfold bind.
      pose proof (RegisterResetRoundRobin_once this0 p w0) as H.
      destruct (RegisterResetRoundRobin this0 p w0) as [this1 w1].
      destruct H as [Hlatch Hcreated].
      by rewrite (registerAll_latched ps this1 w1 Hlatch).
  - pose proof (new_instance name policy w0) as Hthis.
    assert (Htimers : ∃ created,
               timers (new name policy w0).2 = timers w0 ++ created
               ∧ length created ≤ 1).
    { unfold new. unfold bind at 1.
      destruct (LocalCacheHelper.RegisterLocalCacheStore name w0)
        as [u wr] eqn:Hr.
      assert (timers wr = timers w0) as <-.
      { revert Hr. unfold_helper. simpl.
        destruct (stores w0 !! name); by intros [= _ <-]. }
      pose proof (RegisterResetRoundRobin_once
                    (mkRepository name false None (mkRoundRobinState false))
                    policy wr) as H.
      destruct (RegisterResetRoundRobin _ policy wr) as [this1 w1].
      simpl. apply H. }
    destruct (new name policy w0) as [this w]. simpl in Hthis, Htimers.
    split; [| exact Htimers].
    apply registerAll_latched. by rewrite Hthis.
Qed.

(** * Further properties *)

(** ** What a trace of use preserves *)

Ltac step_cases s :=
  destruct s; simpl in *; unfold discard; unfold_repo;
  unfold Timers.unref, Timers.fire, Timers.runCallback; unfold_helper;
  simpl; repeat (case_match; simplify_eq/=).

(** A partition after a change that can only take entries away. *)
Lemma partition_alter_shrinks (f : gmap string string → gmap string string)
    (n m : string) (s : gmap string (gmap string string)) :
  (∀ x, f x ⊆ x) →
  LocalCacheHelper.partition n (alter f m s) ⊆ LocalCacheHelper.partition n s.
Proof.
  intros Hf. unfold LocalCacheHelper.partition.
  destruct (decide (m = n)) as [-> | Hne].
  - rewrite lookup_alter_eq. destruct (s !! n); simpl; [apply Hf | done].
  - by rewrite lookup_alter_ne.
Qed.

Section TraceLaws.

Context {T Num : Type}.
Variable JSON_parse : string → option T.
Variable JSON_stringify : T → string.
Variable parseFloat : string → Num.
Variable isNaN : Num → bool.
Variable toString : Num → string.

Local Abbreviation runStep :=
  (step JSON_parse JSON_stringify parseFloat isNaN toString).
Local Abbreviation runSteps :=
  (steps JSON_parse JSON_stringify parseFloat isNaN toString).

Lemma steps_cons (this : LegacyLocalCacheRepository) (s : Step T Num)
    (l : list (Step T Num)) (w : World) :
  runSteps this (s :: l) w = runSteps this l (runStep this s w).2.
Proof. simpl. unfold bind. by destruct (runStep this s w) as [[] w1]. Qed.

Lemma step_read_only (this : LegacyLocalCacheRepository) (s : Step T Num)
    (w : World) :
  isReadOnly s = true → stores (runStep this s w).2 = stores w.
Proof. intros Hs. step_cases s; done. Qed.

Lemma step_timerShape (this : LegacyLocalCacheRepository) (s : Step T Num)
    (w : World) :
  timerShape <$> timers (runStep this s w).2 = timerShape <$> timers w.
Proof.
  step_cases s; try done.
  rewrite (list_fmap_alter _ _ id); [by apply list_alter_id |].
  by apply Forall_true.
Qed.

Lemma step_disabled_shrinks (this : LegacyLocalCacheRepository)
    (s : Step T Num) (n : string) (w : World) :
  _DoNotCache this = true →
  LocalCacheHelper.partition n (stores (runStep this s w).2)
  ⊆ LocalCacheHelper.partition n (stores w).
Proof.
  intros Hoff. step_cases s; try done.
  all: apply partition_alter_shrinks; intros x;
    first [apply map_empty_subseteq | apply delete_subseteq].
Qed.

Lemma step_own_partition (this : LegacyLocalCacheRepository) (s : Step T Num)
    (other : string) (w : World) :
  isTick s = false → other ≠ _Name this →
  stores (runStep this s w).2 !! other = stores w !! other.
Proof.
  intros Hs Hne. step_cases s; try done.
  all: by rewrite lookup_alter_ne.
Qed.

Lemma step_untargeted (this : LegacyLocalCacheRepository) (s : Step T Num)
    (w : World) :
  Forall (λ t, callback t ≠ ResetTick (_Name this)) (timers w) →
  isReadOnly s || isTick s = true →
  stores (runStep this s w).2 !! _Name this = stores w !! _Name this.
Proof.
  intros Hfree Hs. step_cases s; try done.
  rewrite lookup_alter_ne; [done |].
  intros ->. eapply Forall_lookup_1 in Hfree; [| eassumption].
  apply Hfree. by simplify_eq/=.
Qed.

(** X8: the getters and [KillReset] never change the backing store: after
    any trace made of them alone, every partition is as it was. *)
Theorem reads_never_mutate_store (this : LegacyLocalCacheRepository)
    (l : list (Step T Num)) (w : World) :
  Forall (λ s, isReadOnly s = true) l →
  stores (runSteps this l w).2 = stores w.
Proof.
  intros Hl. revert w. induction Hl as [| s l Hs _ IH]; intros w; [done |].
  rewrite steps_cons, IH. by apply step_read_only.
Qed.

(** X9: no public member and no timer tick adds, removes, stops or
    re-targets a timer: after any trace the runtime's table has the same
    timers, each with the callback, the delay and the active flag it had. *)
Theorem timers_keep_their_shape (this : LegacyLocalCacheRepository)
    (l : list (Step T Num)) (w : World) :
  timerShape <$> timers (runSteps this l w).2 = timerShape <$> timers w.
Proof.
  revert w. induction l as [| s l IH]; intros w; [done |].
  rewrite steps_cons, IH. apply step_timerShape.
Qed.

(** X11: a disabled instance never adds or changes an entry, and neither do
    timer ticks: after any trace on a disabled instance, every entry of every
    partition was already there, with the same value. *)
Theorem disabled_instance_adds_no_entry (this : LegacyLocalCacheRepository)
    (l : list (Step T Num)) (w : World) (n k v : string) :
  _DoNotCache this = true →
  LocalCacheHelper.partition n (stores (runSteps this l w).2) !! k = Some v →
  LocalCacheHelper.partition n (stores w) !! k = Some v.
Proof.
  intros Hoff. revert w. induction l as [| s l IH]; intros w; [done |].
  rewrite steps_cons. intros Hk. apply IH in Hk.
  eapply lookup_weaken; [exact Hk |]. by apply step_disabled_shrinks.
Qed.

(** X12: the members of an instance reach no partition but the one it is
    named after: after any trace without timer ticks, every other partition
    is as it was. *)
Theorem calls_touch_only_own_partition (this : LegacyLocalCacheRepository)
    (l : list (Step T Num)) (w : World) (other : string) :
  Forall (λ s, isTick s = false) l →
  other ≠ _Name this →
  stores (runSteps this l w).2 !! other = stores w !! other.
Proof.
  intros Hl Hne. revert w.
  induction Hl as [| s l Hs _ IH]; intros w; [done |].
  rewrite steps_cons, IH. by apply step_own_partition.
Qed.

(** X16: when no timer of the runtime is a reset of the instance's store,
    the store never expires: after any trace of timer ticks, getters and
    [KillReset], the instance's partition is as it was. *)
Theorem untargeted_store_survives_ticks (this : LegacyLocalCacheRepository)
    (l : list (Step T Num)) (w : World) :
  Forall (λ t, callback t ≠ ResetTick (_Name this)) (timers w) →
  Forall (λ s, isReadOnly s || isTick s = true) l →
  stores (runSteps this l w).2 !! _Name this = stores w !! _Name this.
Proof.
  intros Hfree Hl. revert w Hfree.
  induction Hl as [| s l Hs _ IH]; intros w Hfree; [done |].
  rewrite steps_cons, IH; [by apply step_untargeted |].
  pose proof (step_timerShape this s w) as Hshape.
  apply Forall_lookup. intros i t Ht.
  assert (Hi : (timerShape <$> timers (runStep this s w).2) !! i
               = Some (timerShape t)) by by rewrite list_lookup_fmap, Ht.
  rewrite Hshape, list_lookup_fmap in Hi.
  destruct (timers w !! i) as [t0|] eqn:Ht0; [| done].
  eapply Forall_lookup_1 in Hfree; [| exact Ht0].
  simpl in Hi. injection Hi as Hcb _ _. by rewrite <- Hcb.
Qed.

End TraceLaws.

Lemma reads_never_mutate_store_witness :
  Forall (λ s, isReadOnly s = true) readTrace
  ∧ stores (steps decodeBoolean encodeBoolean parseDigits isNone showNumber
              sampleRepository readTrace garbledWorld).2
    = stores garbledWorld.
Proof.
  assert (Hl : Forall (λ s, isReadOnly s = true) readTrace)
    by (repeat constructor).
  split; [exact Hl |].
  exact (reads_never_mutate_store decodeBoolean encodeBoolean parseDigits
           isNone showNumber sampleRepository readTrace garbledWorld Hl).
Defined.

Lemma disabled_instance_adds_no_entry_witness :
  _DoNotCache disabledRepository = true
  ∧ LocalCacheHelper.partition "cache"
      (stores (steps decodeBoolean encodeBoolean parseDigits isNone showNumber
                 disabledRepository disabledTrace disabledWorld).2)
      !! "k" = Some "v"
  ∧ LocalCacheHelper.partition "cache" (stores disabledWorld) !! "k" = Some "v".
Proof.
  assert (Hoff : _DoNotCache disabledRepository = true) by reflexivity.
  assert (Hk : LocalCacheHelper.partition "cache"
                 (stores (steps decodeBoolean encodeBoolean parseDigits isNone
                            showNumber disabledRepository disabledTrace
                            disabledWorld).2)
                 !! "k" = Some "v")
    by (vm_compute; reflexivity).
  split; [exact Hoff |]. split; [exact Hk |].
  exact (disabled_instance_adds_no_entry decodeBoolean encodeBoolean
           parseDigits isNone showNumber disabledRepository disabledTrace
           disabledWorld "cache" "k" "v" Hoff Hk).
Defined.

Lemma calls_touch_only_own_partition_witness :
  Forall (λ s, isTick s = false) writeTrace
  ∧ "cache" ≠ _Name otherRepository
  ∧ stores (steps decodeBoolean encodeBoolean parseDigits isNone showNumber
              otherRepository writeTrace otherWorld).2 !! "cache"
    = stores otherWorld !! "cache".
Proof.
  assert (Hl : Forall (λ s, isTick s = false) writeTrace)
    by (repeat constructor).
  assert (Hne : "cache" ≠ _Name otherRepository) by (vm_compute; discriminate).
  split; [exact Hl |]. split; [exact Hne |].
  exact (calls_touch_only_own_partition decodeBoolean encodeBoolean
           parseDigits isNone showNumber otherRepository writeTrace otherWorld
           "cache" Hl Hne).
Defined.

Lemma untargeted_store_survives_ticks_witness :
  Forall (λ t, callback t ≠ ResetTick (_Name lastingRepository))
         (timers watchedWorld)
  ∧ Forall (λ s, isReadOnly s || isTick s = true) tickTrace
  ∧ stores (steps decodeBoolean encodeBoolean parseDigits isNone showNumber
              lastingRepository tickTrace watchedWorld).2
      !! _Name lastingRepository
    = stores watchedWorld !! _Name lastingRepository.
Proof.
  assert (Hfree : Forall (λ t, callback t ≠ ResetTick (_Name lastingRepository))
                         (timers watchedWorld))
    by (repeat constructor; vm_compute; discriminate).
  assert (Hl : Forall (λ s, isReadOnly s || isTick s = true) tickTrace)
    by (repeat constructor).
  split; [exact Hfree |]. split; [exact Hl |].
  exact (untargeted_store_survives_ticks decodeBoolean encodeBoolean
           parseDigits isNone showNumber lastingRepository tickTrace
           watchedWorld Hfree Hl).
Defined.

(** ** Construction *)

(** X1: what the constructor makes of each policy. The instance carries the
    given name; it is disabled exactly for [DoNotCache] and for a value
    outside the enumeration; it owns a timer exactly for the ten
    finite-interval members, and then the runtime's table gains one
    referenced, active timer that resets the instance's own store, with a
    delay between 5000 and 3600000 ms; for every other policy the table is
    left as it was. *)
Theorem new_by_policy (name : string) (policy : CachePolicy) (w0 : World) :
  let (this, w) := new name policy w0 in
  _Name this = name
  ∧ (_DoNotCache this = true
     ↔ policy = DoNotCache ∨ ∃ raw, policy = Unrecognized raw)
  ∧ (is_Some (_CacheRefreshIntervalTimer this)
     ↔ policy ∈ finiteIntervalPolicies)
  ∧ if decide (policy ∈ finiteIntervalPolicies)
    then ∃ ms, (5000 ≤ ms ≤ 3600000)%Z
               ∧ _CacheRefreshIntervalTimer this = Some (length (timers w0))
               ∧ timers w
                 = timers w0 ++ [mkTimeout (ResetTick name) ms true true]
    else timers w = timers w0.
Proof.
  destruct policy.
  all: unfold new, RegisterResetRoundRobin, finiteIntervalPolicies;
    unfold_helper; simpl; destruct (stores w0 !! name); simpl.
  all: split; [reflexivity |].
  all: split;
    [split; [first [discriminate | solve [eauto]] | intros [H | [raw' H]]; done] |].
  all: split;
    [split;
       [first [intros [? ?]; discriminate | intros _; solve [repeat constructor]]
       | first [solve [intros _; eauto]
               | intros Hin;
                 repeat (apply elem_of_cons in Hin as [Hin | Hin];
                         [discriminate Hin |]);
                 by apply elem_of_nil in Hin]] |].
  all: first [done | eexists; split; [| split; reflexivity]; lia].
Qed.

(** X2: constructing an instance never clears or alters cached data: every
    partition, the one of the new instance included, holds the entries it
    held, and the only call made to the helper is the registration of the
    name. *)
Theorem new_preserves_entries (name other : string) (policy : CachePolicy)
    (w0 : World) :
  let w := (new name policy w0).2 in
  LocalCacheHelper.partition other (stores w)
  = LocalCacheHelper.partition other (stores w0)
  ∧ calls w = calls w0 ++ [CallRegister name].
Proof.
  unfold new, RegisterResetRoundRobin, Timers.setInterval. unfold_helper.
  simpl.
  destruct (stores w0 !! name) eqn:E; simpl;
    destruct (CalculateResetMsForStatePolicy policy) as [ms|]; simpl;
    try destruct (bool_decide (ms ≠ (-1)%Z)); simpl; (split; [| done]);
    try done.
  all: unfold LocalCacheHelper.partition;
    destruct (decide (name = other)) as [-> | Hne];
    [by rewrite lookup_insert_eq, E | by rewrite lookup_insert_ne].
Qed.

(** ** Reads and writes *)

(** X3: a key that the partition does not hold reads as a miss through every
    getter, whatever the parse-failure flag: the flag only matters once a
    value was found. *)
Theorem reads_miss_on_absent_key {T Num : Type}
    (JSON_parse : string → option T)
    (parseFloat : string → Num) (isNaN : Num → bool)
    (this : LegacyLocalCacheRepository) (k : string) (flag : bool) (w : World) :
  LocalCacheHelper.partition (_Name this) (stores w) !! k = None →
  (GetCachedValue this k w).1 = (false, None)
  ∧ (GetCachedValueJson JSON_parse this k flag w).1 = (false, null)
  ∧ (GetCachedValueNumber parseFloat isNaN this k flag w).1 = (false, null).
Proof.
  intros Hk. unfold_repo. unfold_helper.
  destruct (_DoNotCache this); simpl; [done |]. by rewrite Hk.
Qed.

Lemma reads_miss_on_absent_key_witness :
  LocalCacheHelper.partition (_Name sampleRepository) (stores garbledWorld)
    !! "absent" = None
  ∧ (GetCachedValue sampleRepository "absent" garbledWorld).1 = (false, None)
  ∧ (GetCachedValueJson decodeBoolean sampleRepository "absent" true
       garbledWorld).1 = (false, null)
  ∧ (GetCachedValueNumber parseDigits isNone sampleRepository "absent" true
       garbledWorld).1 = (false, null).
Proof.
  assert (Hk : LocalCacheHelper.partition (_Name sampleRepository)
                 (stores garbledWorld) !! "absent" = None)
    by (vm_compute; reflexivity).
  split; [exact Hk |].
  exact (reads_miss_on_absent_key decodeBoolean parseDigits isNone
           sampleRepository "absent" true garbledWorld Hk).
Defined.

(** X4: JSON round trip. On an instance that is not disabled, for a value
    that [JSON.parse] reads back from its [JSON.stringify] text,
    [SetCachedValueJson k v] echoes [v] and a [GetCachedValueJson k] right
    after it returns [(true, v)], whatever the flag. *)
Theorem SetCachedValueJson_GetCachedValueJson_round_trip {T : Type}
    (JSON_parse : string → option T) (JSON_stringify : T → string)
    (this : LegacyLocalCacheRepository) (k : string) (v : T) (flag : bool)
    (w : World) :
  _DoNotCache this = false →
  is_Some (stores w !! _Name this) →
  JSON_parse (JSON_stringify v) = Some v →
  let (r, w1) := SetCachedValueJson JSON_stringify this k v w in
  r = typed v
  ∧ (GetCachedValueJson JSON_parse this k flag w1).1 = (true, typed v).
Proof.
  intros Hon Hreg Hrt. unfold_repo. rewrite Hon. unfold_helper. simpl.
  split; [done |].
  rewrite partition_alter, lookup_insert_eq by done. simpl. by rewrite Hrt.
Qed.

Lemma SetCachedValueJson_GetCachedValueJson_round_trip_witness :
  _DoNotCache sampleRepository = false
  ∧ is_Some (stores sampleWorld !! _Name sampleRepository)
  ∧ decodeBoolean (encodeBoolean true) = Some true
  ∧ let (r, w1) :=
      SetCachedValueJson encodeBoolean sampleRepository "k" true sampleWorld in
    r = typed true
    ∧ (GetCachedValueJson decodeBoolean sampleRepository "k" false w1).1
      = (true, typed true).
Proof.
  assert (Hon : _DoNotCache sampleRepository = false) by reflexivity.
  assert (Hreg : is_Some (stores sampleWorld !! _Name sampleRepository))
    by (vm_compute; eexists; reflexivity).
  assert (Hrt : decodeBoolean (encodeBoolean true) = Some true) by reflexivity.
  split; [exact Hon |]. split; [exact Hreg |]. split; [exact Hrt |].
  exact (SetCachedValueJson_GetCachedValueJson_round_trip decodeBoolean
           encodeBoolean sampleRepository "k" true false sampleWorld
           Hon Hreg Hrt).
Defined.

(** X5: the typed setters store text and echo the typed input. On an
    instance that is not disabled, [SetCachedValueJson k v] returns [v]
    itself while the entry under [k] is the [JSON.stringify] text of [v], as
    a raw [GetCachedValue k] shows; [SetCachedValueNumber k n] returns [n]
    and stores [n.toString()]. *)
Theorem typed_setters_store_text {T Num : Type}
    (JSON_stringify : T → string) (toString : Num → string)
    (this : LegacyLocalCacheRepository) (k : string) (v : T) (n : Num)
    (w : World) :
  _DoNotCache this = false →
  is_Some (stores w !! _Name this) →
  (let (r, w1) := SetCachedValueJson JSON_stringify this k v w in
   r = typed v
   ∧ (GetCachedValue this k w1).1 = (true, Some (JSON_stringify v)))
  ∧ (let (r, w1) := SetCachedValueNumber toString this k n w in
     r = typed n
     ∧ (GetCachedValue this k w1).1 = (true, Some (toString n))).
Proof.
  intros Hon Hreg. unfold_repo. rewrite Hon. unfold_helper. simpl.
  by rewrite !partition_alter, !lookup_insert_eq.
Qed.

Lemma typed_setters_store_text_witness :
  _DoNotCache sampleRepository = false
  ∧ is_Some (stores sampleWorld !! _Name sampleRepository)
  ∧ (let (r, w1) :=
       SetCachedValueJson encodeBoolean sampleRepository "k" false sampleWorld in
     r = typed false
     ∧ (GetCachedValue sampleRepository "k" w1).1 = (true, Some "false"))
  ∧ (let (r, w1) :=
       SetCachedValueNumber showNumber sampleRepository "k" (Some 42%N)
         sampleWorld in
     r = typed (Some 42%N)
     ∧ (GetCachedValue sampleRepository "k" w1).1 = (true, Some "42")).
Proof.
  assert (Hon : _DoNotCache sampleRepository = false) by reflexivity.
  assert (Hreg : is_Some (stores sampleWorld !! _Name sampleRepository))
    by (vm_compute; eexists; reflexivity).
  split; [exact Hon |]. split; [exact Hreg |].
  exact (typed_setters_store_text encodeBoolean showNumber sampleRepository
           "k" false (Some 42%N) sampleWorld Hon Hreg).
Defined.

(** X6: what a number reads back as. On an instance that is not disabled,
    after [SetCachedValueNumber k n] a [GetCachedValueNumber k] returns the
    [parseFloat] of the stored text with [found = true]; but when that parse
    is not-a-number (as for a stored [NaN]) the entry the setter just wrote
    reads as a miss, or with the flag set as the stored text itself. *)
Theorem SetCachedValueNumber_read_back {Num : Type}
    (parseFloat : string → Num) (isNaN : Num → bool) (toString : Num → string)
    (this : LegacyLocalCacheRepository) (k : string) (n : Num) (flag : bool)
    (w : World) :
  _DoNotCache this = false →
  is_Some (stores w !! _Name this) →
  let (r, w1) := SetCachedValueNumber toString this k n w in
  r = typed n
  ∧ (GetCachedValueNumber parseFloat isNaN this k flag w1).1
    = if isNaN (parseFloat (toString n))
      then if flag then (true, rawString (toString n)) else (false, null)
      else (true, typed (parseFloat (toString n))).
Proof.
  intros Hon Hreg. unfold_repo. rewrite Hon. unfold_helper. simpl.
  split; [done |].
  rewrite partition_alter, lookup_insert_eq by done. simpl.
  destruct (isNaN (parseFloat (toString n))); by destruct flag.
Qed.

Lemma SetCachedValueNumber_read_back_witness :
  _DoNotCache sampleRepository = false
  ∧ is_Some (stores sampleWorld !! _Name sampleRepository)
  ∧ (let (r, w1) :=
       SetCachedValueNumber showNumber sampleRepository "k" (Some 42%N)
         sampleWorld in
     (GetCachedValueNumber parseDigits isNone sampleRepository "k" false w1).1
     = (true, typed (Some 42%N)))
  ∧ (let (r, w1) :=
       SetCachedValueNumber showNumber sampleRepository "k" None sampleWorld in
     (GetCachedValueNumber parseDigits isNone sampleRepository "k" false w1).1
     = (false, null)).
Proof.
  assert (Hon : _DoNotCache sampleRepository = false) by reflexivity.
  assert (Hreg : is_Some (stores sampleWorld !! _Name sampleRepository))
    by (vm_compute; eexists; reflexivity).
  split; [exact Hon |]. split; [exact Hreg |].
  pose proof (SetCachedValueNumber_read_back parseDigits isNone showNumber
                sampleRepository "k" (Some 42%N) false sampleWorld Hon Hreg)
    as Hnum.
  pose proof (SetCachedValueNumber_read_back parseDigits isNone showNumber
                sampleRepository "k" None false sampleWorld Hon Hreg)
    as Hnan.
  split.
  - destruct (SetCachedValueNumber showNumber sampleRepository "k"
                (Some 42%N) sampleWorld) as [r w1].
    exact (proj2 Hnum).
  - destruct (SetCachedValueNumber showNumber sampleRepository "k" None
                sampleWorld) as [r w1].
    exact (proj2 Hnan).
Defined.

(** A change that maps the empty partition to itself acts on the partition
    whether or not the name is registered. *)
Lemma partition_alter_strict (f : gmap string string → gmap string string)
    (name : string) (s : gmap string (gmap string string)) :
  f ∅ = ∅ →
  LocalCacheHelper.partition name (alter f name s)
  = f (LocalCacheHelper.partition name s).
Proof.
  intros Hf. unfold LocalCacheHelper.partition. rewrite lookup_alter_eq.
  by destruct (s !! name).
Qed.

Lemma partition_alter_other (f : gmap string string → gmap string string)
    (name other : string) (s : gmap string (gmap string string)) :
  other ≠ name →
  LocalCacheHelper.partition other (alter f name s)
  = LocalCacheHelper.partition other s.
Proof.
  intros Hne. unfold LocalCacheHelper.partition. by rewrite lookup_alter_ne.
Qed.

(** X7: on an instance that is not disabled, a later [SetCachedValue] on
    the same key replaces the earlier value, reads of any other key are not
    affected by the writes, and the store no longer reports clear. *)
Theorem later_write_wins (this : LegacyLocalCacheRepository)
    (k k' v1 v2 : string) (w : World) :
  _DoNotCache this = false →
  is_Some (stores w !! _Name this) →
  k' ≠ k →
  let w1 := (SetCachedValue this k v1 w).2 in
  let w2 := (SetCachedValue this k v2 w1).2 in
  (GetCachedValue this k w2).1 = (true, Some v2)
  ∧ (GetCachedValue this k' w2).1 = (GetCachedValue this k' w).1
  ∧ (IsCacheClear this w2).1 = false.
Proof.
  intros Hon Hreg Hne. unfold_repo. rewrite Hon. unfold_helper. simpl.
  assert (Hreg1 : is_Some (alter (insert k v1) (_Name this) (stores w)
                           !! _Name this))
    by by rewrite lookup_alter_is_Some.
  rewrite !partition_alter by done.
  rewrite lookup_insert_eq, !lookup_insert_ne by done.
  split; [done |].
  split;
    [by destruct (LocalCacheHelper.partition (_Name this) (stores w) !! k') |].
  simpl. apply bool_decide_eq_false_2.
  rewrite insert_insert_eq.
  intros Hz. apply (f_equal Z.to_nat) in Hz. rewrite Nat2Z.id in Hz.
  simpl in Hz. apply map_size_empty_inv in Hz.
  by apply insert_non_empty in Hz.
Qed.

Lemma later_write_wins_witness :
  _DoNotCache sampleRepository = false
  ∧ is_Some (stores garbledWorld !! _Name sampleRepository)
  ∧ "k" ≠ "j"
  ∧ (GetCachedValue sampleRepository "j"
       (SetCachedValue sampleRepository "j" "second"
          (SetCachedValue sampleRepository "j" "first" garbledWorld).2).2).1
    = (true, Some "second")
  ∧ (GetCachedValue sampleRepository "k"
       (SetCachedValue sampleRepository "j" "second"
          (SetCachedValue sampleRepository "j" "first" garbledWorld).2).2).1
    = (GetCachedValue sampleRepository "k" garbledWorld).1.
Proof.
  assert (Hon : _DoNotCache sampleRepository = false) by reflexivity.
  assert (Hreg : is_Some (stores garbledWorld !! _Name sampleRepository))
    by (vm_compute; eexists; reflexivity).
  assert (Hne : "k" ≠ "j") by discriminate.
  destruct (later_write_wins sampleRepository "j" "k" "first" "second"
              garbledWorld Hon Hreg Hne) as (Hk & Hk' & _).
  split; [exact Hon |]. split; [exact Hreg |]. split; [exact Hne |].
  split; [exact Hk | exact Hk'].
Defined.

(** X10: [RemoveKey k] takes exactly the entry of [k] out of the instance's
    partition (nothing, when [k] is not there): a read of [k] after it
    misses, and a read of any other key returns what it returned before. *)
Theorem RemoveKey_removes_one_entry (this : LegacyLocalCacheRepository)
    (k k' : string) (w : World) :
  k' ≠ k →
  let w1 := (RemoveKey this k w).2 in
  LocalCacheHelper.partition (_Name this) (stores w1)
  = delete k (LocalCacheHelper.partition (_Name this) (stores w))
  ∧ (GetCachedValue this k w1).1 = (false, None)
  ∧ (GetCachedValue this k' w1).1 = (GetCachedValue this k' w).1.
Proof.
  intros Hne. unfold_repo. unfold_helper. simpl.
  rewrite partition_alter_strict by apply delete_empty.
  split; [done |].
  destruct (_DoNotCache this); simpl; [done |].
  rewrite !partition_alter_strict by apply delete_empty.
  rewrite lookup_delete_eq, lookup_delete_ne by done.
  split; [done |].
  by destruct (LocalCacheHelper.partition (_Name this) (stores w) !! k').
Qed.

Lemma RemoveKey_removes_one_entry_witness :
  "j" ≠ "k"
  ∧ (GetCachedValue sampleRepository "k"
       (RemoveKey sampleRepository "k" garbledWorld).2).1 = (false, None)
  ∧ (GetCachedValue sampleRepository "j"
       (RemoveKey sampleRepository "k" garbledWorld).2).1
    = (GetCachedValue sampleRepository "j" garbledWorld).1.
Proof.
  assert (Hne : "j" ≠ "k") by discriminate.
  destruct (RemoveKey_removes_one_entry sampleRepository "k" "j" garbledWorld
              Hne) as (_ & Hk & Hj).
  split; [exact Hne |]. split; [exact Hk | exact Hj].
Defined.

(** X17: after [Clear] the instance's store holds nothing: every key reads
    as a miss, [IsCacheClear] is [true] and [GetAllCachedValues] is empty.
    This holds for a disabled instance too: [Clear] is not guarded. *)
Theorem Clear_empties_the_store (this : LegacyLocalCacheRepository)
    (k : string) (w : World) :
  let w1 := (Clear this w).2 in
  LocalCacheHelper.partition (_Name this) (stores w1) = ∅
  ∧ (GetCachedValue this k w1).1 = (false, None)
  ∧ (IsCacheClear this w1).1 = true
  ∧ (GetAllCachedValues this w1).1 = ∅.
Proof.
  unfold_repo. unfold_helper.
  destruct (_DoNotCache this); simpl;
    rewrite !partition_cleared, ?map_size_empty; done.
Qed.

(** X18: the disabled flag hides entries from [GetCachedValue] but not from
    [GetAllCachedValues]. On an instance that is not disabled a read of [k]
    agrees with the snapshot [GetAllCachedValues] returns; on a disabled one
    the read misses whatever the snapshot holds. *)
Theorem GetCachedValue_against_snapshot (this : LegacyLocalCacheRepository)
    (k : string) (w : World) :
  (GetAllCachedValues this w).1
  = LocalCacheHelper.partition (_Name this) (stores w)
  ∧ (GetCachedValue this k w).1
    = if _DoNotCache this then (false, None)
      else match (GetAllCachedValues this w).1 !! k with
           | Some v => (true, Some v)
           | None => (false, None)
           end.
Proof.
  unfold_repo. unfold_helper. simpl. split; [done |].
  destruct (_DoNotCache this); simpl; [done |].
  by destruct (LocalCacheHelper.partition (_Name this) (stores w) !! k).
Qed.

(** X19: on an instance that is not disabled, when the entry under [k] is
    text that [JSON.parse] accepts, [GetCachedValueOrCacheNewValueJson k v]
    returns the parsed cached value; [v] is dropped, the store is unchanged
    and the lookup is the only helper call. *)
Theorem GetCachedValueOrCacheNewValueJson_hit {T : Type}
    (JSON_parse : string → option T) (JSON_stringify : T → string)
    (this : LegacyLocalCacheRepository) (k raw : string) (t v : T) (w : World) :
  _DoNotCache this = false →
  LocalCacheHelper.partition (_Name this) (stores w) !! k = Some raw →
  JSON_parse raw = Some t →
  GetCachedValueOrCacheNewValueJson JSON_parse JSON_stringify this k v w
  = (typed t, (logCall (CallGet (_Name this) k) w).2).
Proof.
  intros Hon Hraw Hparse. unfold_repo. rewrite Hon. unfold_helper. simpl.
  rewrite Hraw. simpl. by rewrite Hparse.
Qed.

Lemma GetCachedValueOrCacheNewValueJson_hit_witness :
  _DoNotCache sampleRepository = false
  ∧ LocalCacheHelper.partition (_Name sampleRepository) (stores booleanWorld)
      !! "k" = Some "true"
  ∧ decodeBoolean "true" = Some true
  ∧ GetCachedValueOrCacheNewValueJson decodeBoolean encodeBoolean
      sampleRepository "k" false booleanWorld
    = (typed true, (logCall (CallGet (_Name sampleRepository) "k")
                      booleanWorld).2).
Proof.
  assert (Hon : _DoNotCache sampleRepository = false) by reflexivity.
  assert (Hraw : LocalCacheHelper.partition (_Name sampleRepository)
                   (stores booleanWorld) !! "k" = Some "true")
    by (vm_compute; reflexivity).
  assert (Hparse : decodeBoolean "true" = Some true) by reflexivity.
  split; [exact Hon |]. split; [exact Hraw |]. split; [exact Hparse |].
  exact (GetCachedValueOrCacheNewValueJson_hit decodeBoolean encodeBoolean
           sampleRepository "k" "true" true false booleanWorld
           Hon Hraw Hparse).
Defined.

(** ** Several instances and their timers *)

(** X13: instances are tied to the store by name alone. What one instance
    writes, another instance of the same name reads back, whatever policy
    each was built with (as long as neither is disabled); an instance of
    another name reads what it read before. *)
Theorem instances_share_store_by_name (a b : LegacyLocalCacheRepository)
    (k v : string) (w : World) :
  _DoNotCache a = false →
  _DoNotCache b = false →
  is_Some (stores w !! _Name a) →
  let w1 := (SetCachedValue a k v w).2 in
  (GetCachedValue b k w1).1
  = if decide (_Name b = _Name a) then (true, Some v)
    else (GetCachedValue b k w).1.
Proof.
  intros Ha Hb Hreg. unfold_repo. rewrite Ha, Hb. unfold_helper. simpl.
  case_decide as Hname.
  - rewrite Hname, partition_alter, lookup_insert_eq by done. done.
  - rewrite partition_alter_other by done.
    by destruct (LocalCacheHelper.partition (_Name b) (stores w) !! k).
Qed.

Lemma instances_share_store_by_name_witness :
  _DoNotCache sampleRepository = false
  ∧ _DoNotCache twinRepository = false
  ∧ _DoNotCache otherRepository = false
  ∧ is_Some (stores twinWorld !! _Name sampleRepository)
  ∧ (GetCachedValue twinRepository "k"
       (SetCachedValue sampleRepository "k" "v" twinWorld).2).1
    = (true, Some "v")
  ∧ (GetCachedValue otherRepository "k"
       (SetCachedValue sampleRepository "k" "v" twinWorld).2).1
    = (false, None).
Proof.
  assert (Ha : _DoNotCache sampleRepository = false) by reflexivity.
  assert (Hb : _DoNotCache twinRepository = false) by reflexivity.
  assert (Hc : _DoNotCache otherRepository = false) by reflexivity.
  assert (Hreg : is_Some (stores twinWorld !! _Name sampleRepository))
    by (vm_compute; eexists; reflexivity).
  split; [exact Ha |]. split; [exact Hb |]. split; [exact Hc |].
  split; [exact Hreg |]. split.
  - exact (instances_share_store_by_name sampleRepository twinRepository
             "k" "v" twinWorld Ha Hb Hreg).
  - exact (instances_share_store_by_name sampleRepository otherRepository
             "k" "v" twinWorld Ha Hc Hreg).
Defined.

(** X14: the reset timer belongs to the instance, not to the store name. Two
    instances built on the same name with finite-interval policies start two
    timers, each with its own handle and its own delay, and both reset the
    same store. *)
Theorem each_instance_starts_its_own_timer (name : string)
    (p1 p2 : CachePolicy) (w0 : World) :
  p1 ∈ finiteIntervalPolicies →
  p2 ∈ finiteIntervalPolicies →
  let (a, w1) := new name p1 w0 in
  let (b, w2) := new name p2 w1 in
  ∃ ms1 ms2,
    CalculateResetMsForStatePolicy p1 = Some ms1
    ∧ CalculateResetMsForStatePolicy p2 = Some ms2
    ∧ timers w2
      = timers w0 ++ [mkTimeout (ResetTick name) ms1 true true;
                      mkTimeout (ResetTick name) ms2 true true]
    ∧ _CacheRefreshIntervalTimer a = Some (length (timers w0))
    ∧ _CacheRefreshIntervalTimer b = Some (S (length (timers w0))).
Proof.
  intros H1 H2.
  destruct (finiteIntervalPolicies_resolve p1 H1) as (ms1 & Hms1 & Hpos1).
  destruct (finiteIntervalPolicies_resolve p2 H2) as (ms2 & Hms2 & Hpos2).
  rewrite (new_finite name p1 ms1 w0 Hms1) by lia.
  rewrite (new_finite name p2 ms2 _ Hms2) by lia. simpl.
  exists ms1, ms2. rewrite <- app_assoc, length_app. simpl.
  repeat split; try done. f_equal. lia.
Qed.

Lemma each_instance_starts_its_own_timer_witness :
  StaleAfterFiveSeconds ∈ finiteIntervalPolicies
  ∧ StaleAfterOneHour ∈ finiteIntervalPolicies
  ∧ let (a, w1) := new "cache" StaleAfterFiveSeconds emptyWorld in
    let (b, w2) := new "cache" StaleAfterOneHour w1 in
    ∃ ms1 ms2,
      CalculateResetMsForStatePolicy StaleAfterFiveSeconds = Some ms1
      ∧ CalculateResetMsForStatePolicy StaleAfterOneHour = Some ms2
      ∧ timers w2
        = timers emptyWorld ++ [mkTimeout (ResetTick "cache") ms1 true true;
                                mkTimeout (ResetTick "cache") ms2 true true]
      ∧ _CacheRefreshIntervalTimer a = Some (length (timers emptyWorld))
      ∧ _CacheRefreshIntervalTimer b = Some (S (length (timers emptyWorld))).
Proof.
  assert (H1 : StaleAfterFiveSeconds ∈ finiteIntervalPolicies)
    by (repeat constructor).
  assert (H2 : StaleAfterOneHour ∈ finiteIntervalPolicies)
    by (repeat constructor).
  split; [exact H1 |]. split; [exact H2 |].
  exact (each_instance_starts_its_own_timer "cache" StaleAfterFiveSeconds
           StaleAfterOneHour emptyWorld H1 H2).
Defined.

(** X15: expiry end to end. On an instance built with a finite-interval
    policy, an entry reads back until the instance's timer ticks; after the
    tick the read misses and [IsCacheClear] is [true]; the next
    [GetCachedValueOrCacheNewValue] on the key stores and returns the value
    it is given. *)
Theorem expired_entry_is_repopulated (name k v v' : string)
    (policy : CachePolicy) (w0 : World) :
  policy ∈ finiteIntervalPolicies →
  let (this, w1) := new name policy w0 in
  let w2 := (SetCachedValue this k v w1).2 in
  let w3 := (Timers.fire (length (timers w0)) w2).2 in
  (GetCachedValue this k w2).1 = (true, Some v)
  ∧ (GetCachedValue this k w3).1 = (false, None)
  ∧ (IsCacheClear this w3).1 = true
  ∧ let (r, w4) := GetCachedValueOrCacheNewValue this k v' w3 in
    r = Some v' ∧ (GetCachedValue this k w4).1 = (true, Some v').
Proof.
  intros Hin.
  destruct (finiteIntervalPolicies_resolve policy Hin) as (ms & Hms & Hpos).
  rewrite (new_finite name policy ms w0 Hms) by lia.
  set (s1 := match stores w0 !! name with
             | Some _ => stores w0
             | None => <[name := ∅]> (stores w0)
             end).
  assert (Hreg : is_Some (s1 !! name)).
  { subst s1. destruct (stores w0 !! name) eqn:E;
      rewrite ?E, ?lookup_insert_eq; eauto. }
  assert (Hfull : ∀ m : gmap string string,
             (0 <? Z.of_nat (size (<[k := v]> m)))%Z = true).
  { intros m. apply Z.ltb_lt.
    pose proof (map_size_ne_0_lookup_2 (<[k := v]> m) k) as Hsz.
    rewrite lookup_insert_eq in Hsz. specialize (Hsz (mk_is_Some _ _ eq_refl)).
    lia. }
  unfold_repo. unfold Timers.fire, Timers.runCallback. unfold_helper. simpl.
  rewrite list_lookup_middle by done. simpl.
  rewrite !partition_alter, Hfull by done. simpl.
  assert (Hreg2 : is_Some (alter (λ _, ∅) name (alter (insert k v) name s1)
                           !! name))
    by by rewrite !lookup_alter_is_Some.
  rewrite !partition_cleared, lookup_empty, map_size_empty. simpl.
  rewrite (partition_alter _ name (alter (λ _, ∅) name _)) by done.
  by rewrite partition_cleared, !lookup_insert_eq.
Qed.

Lemma expired_entry_is_repopulated_witness :
  StaleAfterFiveSeconds ∈ finiteIntervalPolicies
  ∧ let (this, w1) := new "cache" StaleAfterFiveSeconds emptyWorld in
    let w2 := (SetCachedValue this "k" "old" w1).2 in
    let w3 := (Timers.fire (length (timers emptyWorld)) w2).2 in
    (GetCachedValue this "k" w2).1 = (true, Some "old")
    ∧ (GetCachedValue this "k" w3).1 = (false, None)
    ∧ (IsCacheClear this w3).1 = true
    ∧ let (r, w4) := GetCachedValueOrCacheNewValue this "k" "new" w3 in
      r = Some "new" ∧ (GetCachedValue this "k" w4).1 = (true, Some "new").
Proof.
  assert (Hin : StaleAfterFiveSeconds ∈ finiteIntervalPolicies)
    by (repeat constructor).
  split; [exact Hin |].
  exact (expired_entry_is_repopulated "cache" "k" "old" "new"
           StaleAfterFiveSeconds emptyWorld Hin).
Defined.
